(** * Underwater drone water-quality monitor (drone_sketch.ino)

    A shallow embedding of the ESP32 sketch: the IEEE 754 arithmetic of its
    unit conversions, its threshold classifiers, the averaging ADC reader and
    the sampling / reporting loop, followed by the properties stated about
    them.

    Conventions.
    - [float] is IEEE 754 binary32 and [double] is binary64, both with
      round-to-nearest-even, built on the Standard Library's [SpecFloat].
      A C++ expression mixing both is evaluated in [double] after the exact
      promotion of its [float] operands, and a [double] stored in a [float]
      variable is rounded.
      The values a [float] variable can hold are the canonical ones
      ([valid_binary]); the statements below are proved for every
      [spec_float], which covers them.
    - [int] and [long] are 32 bits wide on the ESP32, [unsigned long] too.
    - Everything the sketch takes from the Arduino core and its libraries
      (number formatting, status codes, the probe's sentinel) is a field of
      the class [ArduinoCore]; nothing is assumed about it.
    - [setup] (serial port, ADC attenuation, WiFi join) runs once before
      the loop; it is modelled after the loop, with what it reports from
      the libraries in the class [ArduinoStartup]. *)

From Stdlib Require Import ZArith List Lia Bool String Ascii.
From Stdlib Require Import Floats.SpecFloat.
Import ListNotations.
Local Open Scope Z_scope.

(* ================================================================== *)
(** * IEEE 754 formats *)
(* ================================================================== *)

Definition float := spec_float.
Definition double := spec_float.

Definition is_nan (x : spec_float) : bool :=
  match x with
  | S754_nan => true
  | _ => false
  end.

(** Rounding of a value of any format to the format [(prec, emax)]. *)
Definition SFconv (prec emax : Z) (x : spec_float) : spec_float :=
  match x with
  | S754_finite s m e => binary_normalize prec emax (cond_Zopp s (Zpos m)) e s
  | _ => x
  end.

Module Float32.
Definition prec : Z := 24.
Definition emax : Z := 128.
Definition of_int (z : Z) : float := binary_normalize prec emax z 0 false.
Definition mul : float -> float -> float := SFmul prec emax.
Definition div : float -> float -> float := SFdiv prec emax.
Definition add : float -> float -> float := SFadd prec emax.
Definition sub : float -> float -> float := SFsub prec emax.
Definition of_double : double -> float := SFconv prec emax.
End Float32.

Module Float64.
Definition prec : Z := 53.
Definition emax : Z := 1024.
Definition of_int (z : Z) : double := binary_normalize prec emax z 0 false.
Definition mul : double -> double -> double := SFmul prec emax.
Definition div : double -> double -> double := SFdiv prec emax.
Definition add : double -> double -> double := SFadd prec emax.
Definition sub : double -> double -> double := SFsub prec emax.
Definition of_float : float -> double := SFconv prec emax.
(** The decimal literal [n / d] (d a power of ten): both integers are
    exact in binary64 and the division rounds correctly, so this is the
    binary64 number nearest to the written decimal. *)
Definition lit (n d : Z) : double := div (of_int n) (of_int d).
End Float64.

(** Comparison of a [float] variable with a [double] literal. *)
Definition flt_lt (x : float) (y : double) : bool := SFltb (Float64.of_float x) y.
Definition flt_le (x : float) (y : double) : bool := SFleb (Float64.of_float x) y.
Definition flt_gt (x : float) (y : double) : bool := SFltb y (Float64.of_float x).
Definition flt_ge (x : float) (y : double) : bool := SFleb y (Float64.of_float x).

(** [lo <= x <= hi], the way a C++ assertion would evaluate it. *)
Definition in_range (lo hi : double) (x : float) : bool :=
  flt_ge x lo && flt_le x hi.

(* ================================================================== *)
(** * Fixed-width integers *)
(* ================================================================== *)

Definition wrap_signed32 (z : Z) : Z := (z + 2^31) mod 2^32 - 2^31.
Definition wrap_unsigned32 (z : Z) : Z := z mod 2^32.

Definition LONG_MIN : Z := - 2^31.
Definition LONG_MAX : Z := 2^31 - 1.

(* ================================================================== *)
(** * Constants of the sketch *)
(* ================================================================== *)

Definition PH_SENSOR_PIN : Z := 34.
Definition TURBIDITY_SENSOR_PIN : Z := 35.
Definition DS18B20_PIN : Z := 4.

Definition HOST_NAME : string := "http://yoga.underwaterdrone.my.id/".
Definition PATH_NAME : string := "/api.php".

Definition ADC_RESOLUTION : Z := 4095.
Definition V_REF : float := Float32.of_double (Float64.lit 33 10).

Definition PH_OFFSET : float := Float32.of_double (Float64.lit 0 10).
Definition PH_SLOPE : float :=
  Float32.of_double (Float64.div (Float64.lit 140 10) (Float64.of_float V_REF)).

Definition NTU_MAX : float := Float32.of_double (Float64.lit 10000 10).

Definition SENSOR_READ_INTERVAL : Z := 1000.
Definition DATA_SEND_INTERVAL : Z := 5000.

Definition JUMLAH_SAMPLING : Z := 10.

(* ================================================================== *)
(** * Unit conversions *)
(* ================================================================== *)

(** [(float)nilaiADC * V_REF / (float)ADC_RESOLUTION] *)
Definition adcKeVoltage (nilaiADC : Z) : float :=
  Float32.div (Float32.mul (Float32.of_int nilaiADC) V_REF)
              (Float32.of_int ADC_RESOLUTION).

(** The unclamped linear map [(tegangan * PH_SLOPE) + PH_OFFSET]. *)
Definition ph_linear (tegangan : float) : float :=
  Float32.add (Float32.mul tegangan PH_SLOPE) PH_OFFSET.

Definition konversiKePH (tegangan : float) : float :=
  let ph := ph_linear tegangan in
  let ph := if flt_lt ph (Float64.lit 0 10)
            then Float32.of_double (Float64.lit 0 10) else ph in
  let ph := if flt_gt ph (Float64.lit 140 10)
            then Float32.of_double (Float64.lit 140 10) else ph in
  ph.

(** The unclamped inverse map [NTU_MAX * (1.0 - (tegangan / V_REF))]: the
    quotient is a [float], the rest is computed in [double] and rounded on
    assignment. *)
Definition ntu_linear (tegangan : float) : float :=
  Float32.of_double
    (Float64.mul (Float64.of_float NTU_MAX)
       (Float64.sub (Float64.lit 10 10)
          (Float64.of_float (Float32.div tegangan V_REF)))).

Definition konversiKeNTU (tegangan : float) : float :=
  let ntu := ntu_linear tegangan in
  let ntu := if flt_lt ntu (Float64.lit 0 10)
             then Float32.of_double (Float64.lit 0 10) else ntu in
  let ntu := if flt_gt ntu (Float64.lit 10000 10)
             then Float32.of_double (Float64.lit 10000 10) else ntu in
  ntu.

(* ================================================================== *)
(** * Classifiers *)
(* ================================================================== *)

Definition kategoriPH (ph : float) : string :=
  if flt_lt ph (Float64.lit 40 10) then "Sangat Asam ⚠️"
  else if flt_lt ph (Float64.lit 65 10) then "Asam"
  else if flt_le ph (Float64.lit 85 10) then "Normal ✅"
  else if flt_le ph (Float64.lit 110 10) then "Basa"
  else "Sangat Basa ⚠️".

Definition kategoriTurbidity (ntu : float) : string :=
  if flt_lt ntu (Float64.lit 50 10) then "Jernih ✅"
  else if flt_lt ntu (Float64.lit 500 10) then "Sedikit Keruh"
  else if flt_lt ntu (Float64.lit 2000 10) then "Keruh"
  else if flt_lt ntu (Float64.lit 5000 10) then "Sangat Keruh ⚠️"
  else "Ekstrem Keruh 🚨".

Definition kategoriSuhu (suhu : float) : string :=
  if flt_lt suhu (Float64.lit 0 10) then "Beku ❄️"
  else if flt_lt suhu (Float64.lit 150 10) then "Dingin"
  else if flt_lt suhu (Float64.lit 250 10) then "Sejuk ✅"
  else if flt_lt suhu (Float64.lit 300 10) then "Hangat ✅"
  else if flt_lt suhu (Float64.lit 400 10) then "Panas"
  else "Sangat Panas ⚠️".

(* ================================================================== *)
(** * The board and the sketch's global variables *)
(* ================================================================== *)

(** What the sketch uses from the Arduino core, the WiFi and HTTP client
    libraries and DallasTemperature. [String_of_int] is the decimal text of
    an [int], as produced by [String(int)], [Serial.print(int)] and the
    [%d] of [Serial.printf]. *)
Class ArduinoCore := {
  WL_CONNECTED : Z;
  HTTP_CODE_OK : Z;
  DEVICE_DISCONNECTED_C : Z;
  String_of_int : Z -> string;
  String_of_float : float -> Z -> string;
  String_of_double : double -> Z -> string;
  print_double : double -> Z -> string;
  errorToString : Z -> string
}.

(** The latest readings (lines 84-90). *)
Record Readings := mkReadings {
  nilaiPH : float;
  nilaiTurbidity : float;
  nilaiSuhu : float;
  teganganPH : float;
  teganganTurbidity : float;
  rawPH : Z;
  rawTurbidity : Z
}.

Inductive Request := GET (url : string).

(** The hardware and the network as the sketch sees them. The inputs are
    functions of how often a device was asked before; the outputs are logs,
    oldest entry first. *)
Record Board := mkBoard {
  clock : Z;
  adc : Z -> nat -> Z;
  adc_log : list Z;
  probe : nat -> Z -> float;
  probe_requests : nat;
  wifi : nat -> Z;
  wifi_polls : nat;
  http : nat -> Z * string;
  http_log : list Request;
  serial : list string
}.

Record World := mkWorld {
  readings : Readings;
  lastSensorRead : Z;
  lastDataSend : Z;
  board : Board
}.

Definition upd_readings (f : Readings -> Readings) (w : World) : World :=
  mkWorld (f (readings w)) (lastSensorRead w) (lastDataSend w) (board w).
Definition upd_board (f : Board -> Board) (w : World) : World :=
  mkWorld (readings w) (lastSensorRead w) (lastDataSend w) (f (board w)).
Definition set_lastSensorRead (t : Z) (w : World) : World :=
  mkWorld (readings w) t (lastDataSend w) (board w).
Definition set_lastDataSend (t : Z) (w : World) : World :=
  mkWorld (readings w) (lastSensorRead w) t (board w).

Definition set_nilaiPH (x : float) (r : Readings) : Readings :=
  mkReadings x (nilaiTurbidity r) (nilaiSuhu r) (teganganPH r)
             (teganganTurbidity r) (rawPH r) (rawTurbidity r).
Definition set_nilaiTurbidity (x : float) (r : Readings) : Readings :=
  mkReadings (nilaiPH r) x (nilaiSuhu r) (teganganPH r)
             (teganganTurbidity r) (rawPH r) (rawTurbidity r).
Definition set_nilaiSuhu (x : float) (r : Readings) : Readings :=
  mkReadings (nilaiPH r) (nilaiTurbidity r) x (teganganPH r)
             (teganganTurbidity r) (rawPH r) (rawTurbidity r).
Definition set_teganganPH (x : float) (r : Readings) : Readings :=
  mkReadings (nilaiPH r) (nilaiTurbidity r) (nilaiSuhu r) x
             (teganganTurbidity r) (rawPH r) (rawTurbidity r).
Definition set_teganganTurbidity (x : float) (r : Readings) : Readings :=
  mkReadings (nilaiPH r) (nilaiTurbidity r) (nilaiSuhu r) (teganganPH r)
             x (rawPH r) (rawTurbidity r).
Definition set_rawPH (x : Z) (r : Readings) : Readings :=
  mkReadings (nilaiPH r) (nilaiTurbidity r) (nilaiSuhu r) (teganganPH r)
             (teganganTurbidity r) x (rawTurbidity r).
Definition set_rawTurbidity (x : Z) (r : Readings) : Readings :=
  mkReadings (nilaiPH r) (nilaiTurbidity r) (nilaiSuhu r) (teganganPH r)
             (teganganTurbidity r) (rawPH r) x.

Definition tick (ms : Z) (b : Board) : Board :=
  mkBoard (clock b + ms) (adc b) (adc_log b) (probe b) (probe_requests b)
          (wifi b) (wifi_polls b) (http b) (http_log b) (serial b).
Definition log_adc (pin : Z) (b : Board) : Board :=
  mkBoard (clock b) (adc b) (adc_log b ++ [pin]) (probe b) (probe_requests b)
          (wifi b) (wifi_polls b) (http b) (http_log b) (serial b).
Definition log_probe (b : Board) : Board :=
  mkBoard (clock b) (adc b) (adc_log b) (probe b) (S (probe_requests b))
          (wifi b) (wifi_polls b) (http b) (http_log b) (serial b).
Definition log_wifi (b : Board) : Board :=
  mkBoard (clock b) (adc b) (adc_log b) (probe b) (probe_requests b)
          (wifi b) (S (wifi_polls b)) (http b) (http_log b) (serial b).
Definition log_http (r : Request) (b : Board) : Board :=
  mkBoard (clock b) (adc b) (adc_log b) (probe b) (probe_requests b)
          (wifi b) (wifi_polls b) (http b) (http_log b ++ [r]) (serial b).
Definition log_serial (s : string) (b : Board) : Board :=
  mkBoard (clock b) (adc b) (adc_log b) (probe b) (probe_requests b)
          (wifi b) (wifi_polls b) (http b) (http_log b) (serial b ++ [s]).

(* ================================================================== *)
(** * A state monad over the world *)
(* ================================================================== *)

Definition M (A : Type) : Type := World -> A * World.

Definition ret {A} (a : A) : M A := fun w => (a, w).
Definition bind {A B} (m : M A) (k : A -> M B) : M B :=
  fun w => let (a, w') := m w in k a w'.
Definition gets {A} (f : World -> A) : M A := fun w => (f w, w).
Definition modify (f : World -> World) : M unit := fun w => (tt, f w).
Definition exec {A} (m : M A) (w : World) : World := snd (m w).
Definition eval {A} (m : M A) (w : World) : A := fst (m w).

Declare Scope monad_scope.
Delimit Scope monad_scope with monad.
Notation "x <- c1 ;; c2" := (bind c1 (fun x => c2))
  (at level 61, c1 at next level, right associativity) : monad_scope.
Notation "c1 ;; c2" := (bind c1 (fun _ => c2))
  (at level 61, right associativity) : monad_scope.
Local Open Scope monad_scope.

(** ** Devices *)

Definition CRLF : string := String (ascii_of_nat 13) (String (ascii_of_nat 10) "").
Definition LF : string := String (ascii_of_nat 10) "".

Definition analogRead (pin : Z) : M Z :=
  fun w => (adc (board w) pin (List.length (adc_log (board w))),
            upd_board (log_adc pin) w).
Definition delay (ms : Z) : M unit := modify (upd_board (tick ms)).
Definition millis : M Z := gets (fun w => wrap_unsigned32 (clock (board w))).

Definition Serial_print (s : string) : M unit := modify (upd_board (log_serial s)).
Definition Serial_println (s : string) : M unit := Serial_print (s ++ CRLF).

Definition requestTemperatures : M unit := modify (upd_board log_probe).
Definition getTempCByIndex (index : Z) : M float :=
  gets (fun w => probe (board w) (probe_requests (board w)) index).

Definition WiFi_status : M Z :=
  fun w => (wifi (board w) (wifi_polls (board w)), upd_board log_wifi w).

(** [http.begin(url); http.GET()]: the request is recorded and the status
    code of the answer returned; [http.getString()] is the body of the
    answer to the request made last. [http.end()] releases the connection
    and has no effect here. *)
Definition http_GET (url : string) : M Z :=
  fun w => (fst (http (board w) (List.length (http_log (board w)))),
            upd_board (log_http (GET url)) w).
Definition http_getString : M string :=
  gets (fun w => snd (http (board w) (Nat.pred (List.length (http_log (board w)))))).

(* ================================================================== *)
(** * The sketch's procedures *)
(* ================================================================== *)

Section Sketch.
Context {core : ArduinoCore}.

(** ** Averaging ADC reader (lines 105-112) *)

(** The body of the [for] loop, [n] iterations from now; [total] is a
    [long], so the addition wraps at 32 bits. *)
Fixpoint sampling_loop (n : nat) (pin : Z) (total : Z) : M Z :=
  match n with
  | O => ret total
  | S n' =>
      v <- analogRead pin ;;
      delay 2 ;;
      sampling_loop n' pin (wrap_signed32 (total + v))
  end.

Definition bacaADCRataRata (pin : Z) : M Z :=
  total <- sampling_loop (Z.to_nat JUMLAH_SAMPLING) pin 0 ;;
  ret (wrap_signed32 (Z.quot total JUMLAH_SAMPLING)).

(** ** Temperature probe (lines 195-199) *)

Definition bacaSuhuDS18B20 : M float :=
  requestTemperatures ;;
  suhu <- getTempCByIndex 0 ;;
  ret suhu.

(** ** Console table (lines 242-311) *)

Fixpoint padRight_loop (n : nat) (result : string) : string :=
  match n with
  | O => result
  | S n' => padRight_loop n' (result ++ " ")
  end.

(** [while ((int)result.length() < totalLength) result += " "] runs
    [totalLength - length] times, or not at all. *)
Definition padRight (text : string) (totalLength : Z) : string :=
  padRight_loop (Z.to_nat (totalLength - Z.of_nat (String.length text))) text.

(** [width - s.length()], an [unsigned] difference passed as an [int]. *)
Definition room (width : Z) (s : string) : Z :=
  wrap_signed32 (wrap_unsigned32 (width - Z.of_nat (String.length s))).

Definition tampilkanDataSerial : M unit :=
  r <- gets readings ;;
  Serial_println "" ;;
  Serial_println "╔══════════════════════════════════════════════════╗" ;;
  Serial_println "║   🌊 UNDERWATER DRONE - WATER QUALITY MONITOR  ║" ;;
  Serial_println "╠══════════════════════════════════════════════════╣" ;;
  Serial_println "║                                                  ║" ;;
  Serial_println "║  🧪 SENSOR pH (GPIO 34)                         ║" ;;
  Serial_print "║  ├─ ADC Raw      : " ;;
  Serial_print (String_of_int (rawPH r)) ;;
  Serial_println (padRight "" (room 30 (String_of_int (rawPH r))) ++ "║") ;;
  Serial_print "║  ├─ Tegangan     : " ;;
  Serial_print (print_double (Float64.of_float (teganganPH r)) 2) ;;
  Serial_println (" V" ++ padRight "" (room 27 (String_of_float (teganganPH r) 2)) ++ "║") ;;
  Serial_print "║  ├─ Nilai pH     : " ;;
  Serial_print (print_double (Float64.of_float (nilaiPH r)) 2) ;;
  Serial_println (padRight "" (room 30 (String_of_float (nilaiPH r) 2)) ++ "║") ;;
  Serial_print "║  └─ Kategori     : " ;;
  (let katPH := kategoriPH (nilaiPH r) in
   Serial_println (katPH ++ padRight "" (room 30 katPH) ++ "║")) ;;
  Serial_println "║                                                  ║" ;;
  Serial_println "║  🌫️ SENSOR TURBIDITY (GPIO 35)                   ║" ;;
  Serial_print "║  ├─ ADC Raw      : " ;;
  Serial_print (String_of_int (rawTurbidity r)) ;;
  Serial_println (padRight "" (room 30 (String_of_int (rawTurbidity r))) ++ "║") ;;
  Serial_print "║  ├─ Tegangan     : " ;;
  Serial_print (print_double (Float64.of_float (teganganTurbidity r)) 2) ;;
  Serial_println (" V" ++ padRight "" (room 27 (String_of_float (teganganTurbidity r) 2)) ++ "║") ;;
  Serial_print "║  ├─ Nilai NTU    : " ;;
  Serial_print (print_double (Float64.of_float (nilaiTurbidity r)) 1) ;;
  Serial_println (" NTU" ++ padRight "" (room 25 (String_of_float (nilaiTurbidity r) 1)) ++ "║") ;;
  Serial_print "║  └─ Kategori     : " ;;
  (let katNTU := kategoriTurbidity (nilaiTurbidity r) in
   Serial_println (katNTU ++ padRight "" (room 30 katNTU) ++ "║")) ;;
  Serial_println "║                                                  ║" ;;
  Serial_println "║  🌡️ SENSOR SUHU DS18B20 (GPIO 4)                 ║" ;;
  Serial_print "║  ├─ Suhu         : " ;;
  Serial_print (print_double (Float64.of_float (nilaiSuhu r)) 2) ;;
  Serial_println (" °C" ++ padRight "" (room 26 (String_of_float (nilaiSuhu r) 2)) ++ "║") ;;
  Serial_print "║  └─ Kategori     : " ;;
  (let katSuhu := kategoriSuhu (nilaiSuhu r) in
   Serial_println (katSuhu ++ padRight "" (room 30 katSuhu) ++ "║")) ;;
  Serial_println "║                                                  ║" ;;
  Serial_println "╚══════════════════════════════════════════════════╝".

(** ** Reporter (lines 317-354) *)

(** [String(100.0)]: a [double] with the default of two decimal places. *)
Definition daya_listrik : string := String_of_double (Float64.lit 1000 10) 2.

Definition queryString (r : Readings) : string :=
  "?kualitas_air=" ++ String_of_float (nilaiPH r) 2
  ++ "&tahan=" ++ String_of_float (nilaiTurbidity r) 1
  ++ "&udara=" ++ String_of_float (nilaiSuhu r) 2
  ++ "&daya_listrik=" ++ daya_listrik.

Definition serverPath (r : Readings) : string :=
  HOST_NAME ++ PATH_NAME ++ queryString r.

Definition kirimDataKeServer : M unit :=
  status <- WiFi_status ;;
  if status =? WL_CONNECTED then
    r <- gets readings ;;
    Serial_println "" ;;
    Serial_println "📡 Mengirim data ke server..." ;;
    Serial_println ("   URL: " ++ serverPath r) ;;
    httpCode <- http_GET (serverPath r) ;;
    if httpCode >? 0 then
      if httpCode =? HTTP_CODE_OK then
        payload <- http_getString ;;
        Serial_println ("   ✅ Berhasil! Response: " ++ payload)
      else
        Serial_print ("   ⚠️ HTTP Code: " ++ String_of_int httpCode ++ LF)
    else
      Serial_print ("   ❌ Gagal! Error: " ++ errorToString httpCode ++ LF)
  else
    Serial_println "❌ WiFi terputus! Tidak bisa mengirim data.".

(** ** Main loop (lines 425-464) *)

Definition warning_DS18B20 : string := "⚠️ Sensor DS18B20 tidak terdeteksi!".

(** Lines 431-455: the sampler, run when its period has elapsed. *)
Definition sampling_tick (currentMillis : Z) : M unit :=
  last <- gets lastSensorRead ;;
  if wrap_unsigned32 (currentMillis - last) >=? SENSOR_READ_INTERVAL then
    modify (set_lastSensorRead currentMillis) ;;
    raw <- bacaADCRataRata PH_SENSOR_PIN ;;
    modify (upd_readings (set_rawPH raw)) ;;
    modify (upd_readings (fun r => set_teganganPH (adcKeVoltage (rawPH r)) r)) ;;
    modify (upd_readings (fun r => set_nilaiPH (konversiKePH (teganganPH r)) r)) ;;
    raw <- bacaADCRataRata TURBIDITY_SENSOR_PIN ;;
    modify (upd_readings (set_rawTurbidity raw)) ;;
    modify (upd_readings (fun r => set_teganganTurbidity (adcKeVoltage (rawTurbidity r)) r)) ;;
    modify (upd_readings (fun r => set_nilaiTurbidity (konversiKeNTU (teganganTurbidity r)) r)) ;;
    suhu <- bacaSuhuDS18B20 ;;
    modify (upd_readings (set_nilaiSuhu suhu)) ;;
    r <- gets readings ;;
    (if SFeqb (nilaiSuhu r) (Float32.of_int DEVICE_DISCONNECTED_C) then
       Serial_println warning_DS18B20 ;;
       modify (upd_readings (set_nilaiSuhu (Float32.of_double (Float64.lit 0 10))))
     else ret tt) ;;
    tampilkanDataSerial
  else ret tt.

(** Lines 460-463: the reporter, run when its period has elapsed. *)
Definition sending_tick (currentMillis : Z) : M unit :=
  last <- gets lastDataSend ;;
  if wrap_unsigned32 (currentMillis - last) >=? DATA_SEND_INTERVAL then
    modify (set_lastDataSend currentMillis) ;;
    kirimDataKeServer
  else ret tt.

Definition loop : M unit :=
  currentMillis <- millis ;;
  sampling_tick currentMillis ;;
  sending_tick currentMillis.

End Sketch.

(* ================================================================== *)
(** * Vocabulary of the statements *)
(* ================================================================== *)

(** Exhaustive check of a decidable property on the codes [0 .. n-1]. *)
Definition check_codes (P : Z -> bool) (n : nat) : bool :=
  forallb (fun k => P (Z.of_nat k)) (seq 0 n).

(** The [n] values an input delivers from its [start]-th use on. *)
Definition samples_from (f : nat -> Z) (start n : nat) : list Z :=
  map (fun k => f (start + k)%nat) (seq 0 n).

(** The samples the next [n] conversions of [pin] will return. *)
Definition upcoming (w : World) (pin : Z) (n : nat) : list Z :=
  samples_from (adc (board w) pin) (List.length (adc_log (board w))) n.

(** Every sample lies in [lo, hi]. *)
Definition all_within (lo hi : Z) (l : list Z) : bool :=
  forallb (fun s => (lo <=? s) && (s <=? hi)) l.

Definition sum (l : list Z) : Z := fold_right Z.add 0 l.
Definition minimum (l : list Z) : Z := fold_right Z.min (hd 0 l) l.
Definition maximum (l : list Z) : Z := fold_right Z.max (hd 0 l) l.

(** The board after [n] conversions of [pin], each followed by [delay(2)]. *)
Definition after_sampling (pin : Z) (n : nat) (b : Board) : Board :=
  mkBoard (clock b + 2 * Z.of_nat n) (adc b) (adc_log b ++ repeat pin n)
          (probe b) (probe_requests b) (wifi b) (wifi_polls b)
          (http b) (http_log b) (serial b).

(** Everything in the world but the ADC log and the clock, the two things a
    conversion followed by a delay touches. *)
Definition beyond_adc (w : World) :=
  (readings w, lastSensorRead w, lastDataSend w,
   (adc (board w), probe (board w), probe_requests (board w)),
   (wifi (board w), wifi_polls (board w), http (board w), http_log (board w)),
   serial (board w)).

(** The board after the chunks [l] were written to Serial. *)
Definition write_all (l : list string) (b : Board) : Board :=
  mkBoard (clock b) (adc b) (adc_log b) (probe b) (probe_requests b)
          (wifi b) (wifi_polls b) (http b) (http_log b) (serial b ++ l).

Definition blank_board : Board :=
  mkBoard 0 (fun _ _ => 0) [] (fun _ _ => S754_zero false) 0
          (fun _ => 0) 0 (fun _ => (0, ""%string)) [] [].

(** The chunks [tampilkanDataSerial] writes for the readings [r]. *)
Definition table {core : ArduinoCore} (r : Readings) : list string :=
  serial (board (exec tampilkanDataSerial (mkWorld r 0 0 blank_board))).

(** The query string as the spec words it: key-value pairs, [key=value]
    joined by [&] after a [?]. *)
Definition encode_query (pairs : list (string * string)) : string :=
  ("?" ++ String.concat "&" (map (fun kv => fst kv ++ "=" ++ snd kv) pairs))%string.

(** What the reporter works with and the sampler leaves alone. *)
Definition network (w : World) :=
  (lastDataSend w, wifi (board w), wifi_polls (board w),
   http (board w), http_log (board w)).

(** What reading the two analog channels leaves alone. *)
Definition peripherals (w : World) :=
  (network w, probe (board w), probe_requests (board w), serial (board w)).

(** [m] leaves the observation [f] of the world unchanged. *)
Definition preserves {A B} (f : World -> B) (m : M A) : Prop :=
  forall w, f (exec m w) = f w.

(** Partial-correctness triples; every [M A] terminates, so they are total. *)
Definition hoare {A} (P : World -> Prop) (m : M A) (Q : A -> World -> Prop) : Prop :=
  forall w, P w -> Q (eval m w) (exec m w).

(** A concrete core and world, in the manner of the Wokwi simulation the
    sketch targets: a potentiometer drifting on the pH pin, a steady one on
    the turbidity pin, a probe at 25 degrees, WiFi up, a server answering
    200. The number formats are placeholders: no property depends on them. *)
Definition wokwi_core : ArduinoCore := {|
  WL_CONNECTED := 3;
  HTTP_CODE_OK := 200;
  DEVICE_DISCONNECTED_C := -127;
  String_of_int := fun _ => "0"%string;
  String_of_float := fun _ _ => "0.00"%string;
  String_of_double := fun _ _ => "100.00"%string;
  print_double := fun _ _ => "0.00"%string;
  errorToString := fun _ => "error"%string
|}.

Definition wokwi_board : Board := {|
  clock := 6000;
  adc := fun pin k => if pin =? PH_SENSOR_PIN then 2000 + Z.of_nat k else 1000;
  adc_log := [];
  probe := fun _ _ => Float32.of_int 25;
  probe_requests := 0;
  wifi := fun _ => 3;
  wifi_polls := 0;
  http := fun _ => (200, "OK"%string);
  http_log := [];
  serial := []
|}.

Definition wokwi_world : World := {|
  readings := mkReadings (S754_zero false) (S754_zero false) (S754_zero false)
                         (S754_zero false) (S754_zero false) 0 0;
  lastSensorRead := 0;
  lastDataSend := 0;
  board := wokwi_board
|}.

(** The same with the temperature probe unplugged. *)
Definition wokwi_unplugged : World :=
  upd_board (fun b => mkBoard (clock b) (adc b) (adc_log b)
                        (fun _ _ => Float32.of_int (-127)) (probe_requests b)
                        (wifi b) (wifi_polls b) (http b) (http_log b) (serial b))
            wokwi_world.

(* ================================================================== *)
(** * Start-up (lines 363-416) *)
(* ================================================================== *)

Definition WIFI_SSID : string := "Wokwi-GUEST".
Definition WIFI_PASSWORD : string := "".

(** What [setup] reports from the libraries: the number of one-wire
    devices found by [ds18b20Sensor.getDeviceCount()] and the printed form
    of [WiFi.localIP()]. *)
Class ArduinoStartup := {
  getDeviceCount : Z;
  localIP : string
}.

Section Startup.
Context {core : ArduinoCore} {startup : ArduinoStartup}.

(** [while (WiFi.status() != WL_CONNECTED && wifiTimeout < 20)]: the status
    is polled before the counter is tested, so it is polled once more than
    the body runs. [remaining] is [20 - wifiTimeout]. *)
Fixpoint wifi_wait (remaining : nat) : M unit :=
  status <- WiFi_status ;;
  match remaining with
  | O => ret tt
  | S remaining' =>
      if negb (status =? WL_CONNECTED) then
        delay 500 ;;
        Serial_print "." ;;
        wifi_wait remaining'
      else ret tt
  end.

(** [Serial.begin], [analogSetAttenuation], [ds18b20Sensor.begin] and
    [WiFi.begin] configure the devices and leave no trace in the world. *)
Definition setup : M unit :=
  delay 1000 ;;
  Serial_println "" ;;
  Serial_println "╔══════════════════════════════════════════════════╗" ;;
  Serial_println "║   🌊 UNDERWATER DRONE - WATER QUALITY MONITOR  ║" ;;
  Serial_println "║   📋 Sistem Monitoring Kualitas Air            ║" ;;
  Serial_println "║   🔧 ESP32 DevKit V1 | Wokwi Simulator        ║" ;;
  Serial_println "╚══════════════════════════════════════════════════╝" ;;
  Serial_println "" ;;
  Serial_println "✅ ADC dikonfigurasi (12-bit, 0-3.3V)" ;;
  Serial_print "✅ DS18B20 ditemukan: " ;;
  Serial_print (String_of_int getDeviceCount) ;;
  Serial_println " perangkat" ;;
  Serial_println "" ;;
  Serial_print "📡 Menghubungkan ke WiFi: " ;;
  Serial_println WIFI_SSID ;;
  wifi_wait 20 ;;
  Serial_println "" ;;
  status <- WiFi_status ;;
  (if status =? WL_CONNECTED then
     Serial_print "✅ Terhubung! IP Address: " ;;
     Serial_println localIP
   else
     Serial_println "⚠️ Gagal terhubung ke WiFi. Data hanya ditampilkan di Serial.") ;;
  Serial_println "" ;;
  Serial_println "🚀 Sistem monitoring dimulai!" ;;
  Serial_println "   📊 Pembacaan sensor setiap 1 detik" ;;
  Serial_println "   📡 Pengiriman data setiap 5 detik" ;;
  Serial_println "".

End Startup.

(* ================================================================== *)
(** * Further vocabulary *)
(* ================================================================== *)

(** [m] changes the observation [f] of the world by [g], whatever it reads. *)
Definition transforms {A B} (f : World -> B) (g : B -> B) (m : M A) : Prop :=
  forall w, f (exec m w) = g (f w).

(** The polls, among the next [n], that [wifi_wait] sees fail before one
    succeeds. *)
Fixpoint failed_polls {core : ArduinoCore} (f : nat -> Z) (start n : nat) : nat :=
  match n with
  | O => O
  | S n' => if f start =? WL_CONNECTED then O
            else S (failed_polls f (S start) n')
  end.

(** The board after [wifi_wait] saw [k] polls fail. *)
Definition after_waiting (k : nat) (b : Board) : Board :=
  mkBoard (clock b + 500 * Z.of_nat k) (adc b) (adc_log b) (probe b)
          (probe_requests b) (wifi b) (wifi_polls b + k + 1) (http b) (http_log b)
          (serial b ++ repeat "."%string k).

Fixpoint spaces (n : nat) : string :=
  match n with
  | O => ""%string
  | S n' => (" " ++ spaces n')%string
  end.

(** What the ADC, the clock, the probe and the sampler's timer have seen. *)
Definition footprint (w : World) :=
  (adc_log (board w), clock (board w), probe_requests (board w), lastSensorRead w).

(** The three conversions of one raw code. *)
Definition ph_of_code (r : Z) : float := konversiKePH (adcKeVoltage r).
Definition ntu_of_code (r : Z) : float := konversiKeNTU (adcKeVoltage r).

(** The stored voltages and values are the conversions of the stored raw
    codes. *)
Definition consistent (r : Readings) : Prop :=
  teganganPH r = adcKeVoltage (rawPH r) /\
  nilaiPH r = konversiKePH (teganganPH r) /\
  teganganTurbidity r = adcKeVoltage (rawTurbidity r) /\
  nilaiTurbidity r = konversiKeNTU (teganganTurbidity r).

(** The stored acidity and turbidity are on their scales. *)
Definition on_scale (r : Readings) : bool :=
  in_range (Float64.lit 0 10) (Float64.lit 140 10) (nilaiPH r)
  && in_range (Float64.lit 0 10) (Float64.lit 10000 10) (nilaiTurbidity r).

(** Everything [tampilkanDataSerial] and the reporter's logging leave alone. *)
Definition beyond_serial (w : World) :=
  (readings w, lastSensorRead w, lastDataSend w,
   (clock (board w), adc (board w), adc_log (board w)),
   (probe (board w), probe_requests (board w)),
   (wifi (board w), wifi_polls (board w), http (board w), http_log (board w))).

(** Everything [setup] leaves alone. *)
Definition beyond_startup (w : World) :=
  (readings w, lastSensorRead w, lastDataSend w,
   (adc (board w), adc_log (board w)),
   (probe (board w), probe_requests (board w)),
   (wifi (board w), http (board w), http_log (board w))).

(** The simulated world at another time, and with WiFi down. *)
Definition wokwi_at (time lastRead lastSend : Z) : World :=
  mkWorld (readings wokwi_world) lastRead lastSend
          (mkBoard time (adc wokwi_board) [] (probe wokwi_board) 0
                   (wifi wokwi_board) 0 (http wokwi_board) [] []).

Definition wokwi_offline : World :=
  upd_board (fun b => mkBoard (clock b) (adc b) (adc_log b) (probe b)
                        (probe_requests b) (fun _ => 6) (wifi_polls b)
                        (http b) (http_log b) (serial b))
            wokwi_world.

Definition wokwi_startup : ArduinoStartup :=
  {| getDeviceCount := 1; localIP := "10.10.0.2"%string |}.

(** The clock and the WiFi status input, as [setup] moves them. *)
Definition startup_view (w : World) :=
  (clock (board w), wifi_polls (board w), wifi (board w)).

(* ================================================================== *)
(** * Facts about the IEEE 754 operations *)
(* ================================================================== *)

(** ** Rounding never produces a NaN *)

Lemma iter_pos_invariant {A} (P : A -> Prop) (f : A -> A) :
  (forall x, P x -> P (f x)) -> forall p x, P x -> P (iter_pos f p x).
Proof.
  intros Hf. induction p as [p IH|p IH|]; intros x Hx; simpl; auto.
Qed.

Lemma shr_1_nonneg mrs : 0 <= shr_m mrs -> 0 <= shr_m (shr_1 mrs).
Proof.
  destruct mrs as [m r s]. simpl.
  destruct m as [|[p|p|]|[p|p|]]; simpl; lia.
Qed.

Lemma shr_nonneg mrs e n : 0 <= shr_m mrs -> 0 <= shr_m (fst (shr mrs e n)).
Proof.
  intros H. unfold shr. destruct n; simpl; auto.
  apply (iter_pos_invariant (fun r => 0 <= shr_m r)); auto using shr_1_nonneg.
Qed.

Lemma shr_fexp_nonneg prec emax m e l :
  0 <= m -> 0 <= shr_m (fst (shr_fexp prec emax m e l)).
Proof.
  intros H. unfold shr_fexp. apply shr_nonneg.
  destruct l as [|[]]; simpl; exact H.
Qed.

Lemma round_nearest_even_nonneg m l : 0 <= m -> 0 <= round_nearest_even m l.
Proof.
  intros H. unfold round_nearest_even.
  destruct l as [|[]]; try lia. destruct (Z.even m); lia.
Qed.

Lemma binary_round_aux_not_nan prec emax sx mx ex lx :
  0 <= mx -> is_nan (binary_round_aux prec emax sx mx ex lx) = false.
Proof.
  intros H. unfold binary_round_aux.
  pose proof (shr_fexp_nonneg prec emax mx ex lx H) as H1.
  destruct (shr_fexp prec emax mx ex lx) as [mrs' e']. simpl in H1.
  pose proof (shr_fexp_nonneg prec emax _ e' loc_Exact
                (round_nearest_even_nonneg _ (loc_of_shr_record mrs') H1)) as H2.
  destruct (shr_fexp prec emax (round_nearest_even _ _) e' loc_Exact) as [mrs'' e''].
  simpl in H2. destruct (shr_m mrs''); try lia; auto.
  destruct (e'' <=? emax - prec); reflexivity.
Qed.

Lemma binary_round_not_nan prec emax s m e :
  is_nan (binary_round prec emax s m e) = false.
Proof.
  unfold binary_round. destruct (shl_align _ _ _) as [mz ez].
  apply binary_round_aux_not_nan. lia.
Qed.

Lemma binary_normalize_not_nan prec emax m e sz :
  is_nan (binary_normalize prec emax m e sz) = false.
Proof.
  destruct m; simpl; auto using binary_round_not_nan.
Qed.

Lemma SFconv_not_nan prec emax x :
  is_nan x = false -> is_nan (SFconv prec emax x) = false.
Proof.
  destruct x; simpl; auto. intros _. apply binary_normalize_not_nan.
Qed.

Lemma SFmul_finite_r_not_nan prec emax x s m e :
  is_nan x = false -> is_nan (SFmul prec emax x (S754_finite s m e)) = false.
Proof.
  destruct x; simpl; auto. intros _. apply binary_round_aux_not_nan. lia.
Qed.

Lemma SFmul_finite_l_not_nan prec emax x s m e :
  is_nan x = false -> is_nan (SFmul prec emax (S754_finite s m e) x) = false.
Proof.
  destruct x; simpl; auto. intros _. apply binary_round_aux_not_nan. lia.
Qed.

Lemma SFadd_zero_r_not_nan prec emax x s :
  is_nan x = false -> is_nan (SFadd prec emax x (S754_zero s)) = false.
Proof.
  destruct x as [sx|sx| |sx mx ex]; simpl; auto. destruct sx, s; reflexivity.
Qed.

Lemma SFsub_finite_l_not_nan prec emax x s m e :
  is_nan x = false -> is_nan (SFsub prec emax (S754_finite s m e) x) = false.
Proof.
  destruct x as [sx|sx| |sx mx ex]; simpl; auto. intros _.
  apply binary_normalize_not_nan.
Qed.

Lemma SFdiv_core_nonneg prec emax m1 e1 m2 e2 :
  0 <= fst (fst (SFdiv_core_binary prec emax (Zpos m1) e1 (Zpos m2) e2)).
Proof.
  unfold SFdiv_core_binary.
  set (s := _ - _ - _).
  set (m' := match s with Z0 => _ | Zpos _ => _ | Zneg _ => _ end).
  assert (Hm : 0 <= m').
  { subst m'. destruct s; try lia. apply Z.shiftl_nonneg. lia. }
  pose proof (Z_div_mod m' (Zpos m2) ltac:(lia)) as Hd.
  destruct (Z.div_eucl m' (Z.pos m2)) as [q r]. simpl. nia.
Qed.

Lemma SFdiv_finite_r_not_nan prec emax x s m e :
  is_nan x = false -> is_nan (SFdiv prec emax x (S754_finite s m e)) = false.
Proof.
  destruct x as [| | |sx mx ex]; simpl; auto. intros _.
  pose proof (SFdiv_core_nonneg prec emax mx ex m e) as H.
  destruct (SFdiv_core_binary _ _ _ _ _ _) as [[mz ez] lz]. simpl in H.
  apply binary_round_aux_not_nan; exact H.
Qed.

(** ** The comparison is a total preorder away from NaN *)

Lemma SFcompare_not_nan x y :
  is_nan x = false -> is_nan y = false -> exists c, SFcompare x y = Some c.
Proof.
  destruct x, y; simpl; intros; try discriminate; eauto.
Qed.

Lemma SFcompare_antisym x y c :
  SFcompare x y = Some c -> SFcompare y x = Some (CompOpp c).
Proof.
  destruct x as [sx|sx| |sx mx ex], y as [sy|sy| |sy my ey]; simpl;
    try discriminate; intros H; injection H as <-;
    try (destruct sx; reflexivity); try (destruct sy; reflexivity);
    try (destruct sx, sy; reflexivity).
  change (PosDef.Pos.compare_cont Eq mx my) with (Pos.compare mx my).
  change (PosDef.Pos.compare_cont Eq my mx) with (Pos.compare my mx).
  rewrite (Z.compare_antisym ex ey), (Pos.compare_antisym mx my).
  destruct sx, sy; simpl; try reflexivity;
    destruct (ex ?= ey); simpl; try reflexivity;
    destruct (mx ?= my)%positive; reflexivity.
Qed.

Lemma SFltb_false_SFleb x y :
  is_nan x = false -> is_nan y = false -> SFltb x y = false -> SFleb y x = true.
Proof.
  intros Hx Hy. destruct (SFcompare_not_nan x y Hx Hy) as [c Hc].
  unfold SFltb, SFleb. rewrite (SFcompare_antisym _ _ _ Hc), Hc.
  destruct c; simpl; congruence.
Qed.

Lemma SFleb_false_SFltb x y :
  is_nan x = false -> is_nan y = false -> SFleb x y = false -> SFltb y x = true.
Proof.
  intros Hx Hy. destruct (SFcompare_not_nan x y Hx Hy) as [c Hc].
  unfold SFltb, SFleb. rewrite (SFcompare_antisym _ _ _ Hc), Hc.
  destruct c; simpl; congruence.
Qed.

Lemma SFltb_SFleb_false x y : SFltb x y = true -> SFleb y x = false.
Proof.
  unfold SFltb, SFleb. destruct (SFcompare x y) as [c|] eqn:Hc; try discriminate.
  rewrite (SFcompare_antisym _ _ _ Hc). destruct c; simpl; congruence.
Qed.

Lemma SFltb_SFleb x y : SFltb x y = true -> SFleb x y = true.
Proof.
  unfold SFltb, SFleb. destruct (SFcompare x y) as [[]|]; congruence.
Qed.

Lemma SFcompare_nan_l y : SFcompare S754_nan y = None.
Proof. destruct y; reflexivity. Qed.

Lemma SFcompare_nan_r x : SFcompare x S754_nan = None.
Proof. destruct x; reflexivity. Qed.

(* ================================================================== *)
(** * Clamped unit conversions *)
(* ================================================================== *)

(** The two [if]s that follow each linear map. *)
Lemma clamp_in_range (lo hi : double) (p : float) :
  is_nan p = false -> is_nan lo = false -> is_nan hi = false ->
  in_range lo hi (Float32.of_double lo) = true ->
  in_range lo hi (Float32.of_double hi) = true ->
  in_range lo hi
    (let x := if flt_lt p lo then Float32.of_double lo else p in
     if flt_gt x hi then Float32.of_double hi else x) = true.
Proof.
  intros Hp Hlo Hhi Hl Hh. cbv zeta.
  assert (Hp64 : is_nan (Float64.of_float p) = false)
    by (apply SFconv_not_nan; exact Hp).
  destruct (flt_lt p lo) eqn:E1.
  - destruct (flt_gt (Float32.of_double lo) hi); assumption.
  - destruct (flt_gt p hi) eqn:E2; [assumption|].
    unfold in_range, flt_ge, flt_le. unfold flt_lt in E1. unfold flt_gt in E2.
    rewrite (SFltb_false_SFleb _ _ Hp64 Hlo E1).
    rewrite (SFltb_false_SFleb _ _ Hhi Hp64 E2). reflexivity.
Qed.

(** What the two [if]s guarantee on every float, NaN included: the result
    is neither below [lo] nor above [hi]. *)
Lemma clamp_never_outside (lo hi : double) (p : float) :
  flt_lt (Float32.of_double lo) lo = false ->
  flt_gt (Float32.of_double lo) hi = false ->
  flt_lt (Float32.of_double hi) lo = false ->
  flt_gt (Float32.of_double hi) hi = false ->
  let r := (let x := if flt_lt p lo then Float32.of_double lo else p in
            if flt_gt x hi then Float32.of_double hi else x) in
  flt_lt r lo = false /\ flt_gt r hi = false.
Proof.
  intros Hll Hlh Hhl Hhh. cbv zeta.
  destruct (flt_lt p lo) eqn:E1.
  - rewrite Hlh. split; assumption.
  - destruct (flt_gt p hi) eqn:E2; split; assumption.
Qed.

Lemma PH_SLOPE_value : PH_SLOPE = S754_finite false 8897009 (-21).
Proof. vm_compute. reflexivity. Qed.

Lemma PH_OFFSET_value : PH_OFFSET = S754_zero false.
Proof. vm_compute. reflexivity. Qed.

Lemma V_REF_value : V_REF = S754_finite false 13841203 (-22).
Proof. vm_compute. reflexivity. Qed.

Lemma NTU_MAX_value : Float64.of_float NTU_MAX = S754_finite false 8796093022208000 (-43).
Proof. vm_compute. reflexivity. Qed.

Lemma one_value : Float64.lit 10 10 = S754_finite false 4503599627370496 (-52).
Proof. vm_compute. reflexivity. Qed.

Lemma ph_linear_not_nan v : is_nan v = false -> is_nan (ph_linear v) = false.
Proof.
  intros Hv. unfold ph_linear, Float32.add, Float32.mul.
  rewrite PH_SLOPE_value, PH_OFFSET_value.
  apply SFadd_zero_r_not_nan, SFmul_finite_r_not_nan, Hv.
Qed.

Lemma ntu_linear_not_nan v : is_nan v = false -> is_nan (ntu_linear v) = false.
Proof.
  intros Hv. unfold ntu_linear, Float32.of_double, Float64.mul, Float64.sub.
  rewrite NTU_MAX_value, one_value.
  apply SFconv_not_nan, SFmul_finite_l_not_nan, SFsub_finite_l_not_nan.
  apply SFconv_not_nan. unfold Float32.div. rewrite V_REF_value.
  apply SFdiv_finite_r_not_nan, Hv.
Qed.

(** C1: for every input voltage konversiKePH computes the linear map
    voltage * PH_SLOPE + PH_OFFSET and clamps it: the result is 0 when the
    map is below 0, 14 when it is above 14 and the map's value otherwise; it
    is never below 0 and never above 14, and for every voltage (every float
    that is a number, finite or infinite) it lies in [0,14]. *)
Theorem konversiKePH_clamped (tegangan : float) :
  let ph := Float32.add (Float32.mul tegangan PH_SLOPE) PH_OFFSET in
  konversiKePH tegangan =
    (if flt_lt ph (Float64.lit 0 10) then Float32.of_double (Float64.lit 0 10)
     else if flt_gt ph (Float64.lit 140 10) then Float32.of_double (Float64.lit 140 10)
     else ph) /\
  flt_lt (konversiKePH tegangan) (Float64.lit 0 10) = false /\
  flt_gt (konversiKePH tegangan) (Float64.lit 140 10) = false /\
  (is_nan tegangan = false ->
   in_range (Float64.lit 0 10) (Float64.lit 140 10) (konversiKePH tegangan) = true).
Proof.
  intros ph. split; [|split; [|split]].
  - unfold konversiKePH. fold ph. change (ph_linear tegangan) with ph. cbv zeta.
    destruct (flt_lt ph (Float64.lit 0 10)); reflexivity.
  - unfold konversiKePH.
    apply clamp_never_outside; vm_compute; reflexivity.
  - unfold konversiKePH.
    apply clamp_never_outside; vm_compute; reflexivity.
  - intros Hv. unfold konversiKePH.
    apply clamp_in_range;
      [apply ph_linear_not_nan, Hv | vm_compute; reflexivity ..].
Qed.

Lemma konversiKePH_clamped_witness :
  is_nan (adcKeVoltage 2048) = false /\
  in_range (Float64.lit 0 10) (Float64.lit 140 10)
           (konversiKePH (adcKeVoltage 2048)) = true.
Proof.
  split; [vm_compute; reflexivity|].
  apply (konversiKePH_clamped (adcKeVoltage 2048)). vm_compute; reflexivity.
Defined.

(** C2: for every input voltage konversiKeNTU computes
    NTU_MAX * (1 - voltage / V_REF) and clamps it: the result is never below
    0 and never above 1000, and for every voltage (every float that is a
    number) it lies in [0,1000]; at the endpoints konversiKeNTU(3.3) is 0
    and konversiKeNTU(0) is 1000. *)
Theorem konversiKeNTU_clamped :
  (forall tegangan : float,
     let ntu := Float32.of_double
                  (Float64.mul (Float64.of_float NTU_MAX)
                     (Float64.sub (Float64.lit 10 10)
                        (Float64.of_float (Float32.div tegangan V_REF)))) in
     konversiKeNTU tegangan =
       (if flt_lt ntu (Float64.lit 0 10) then Float32.of_double (Float64.lit 0 10)
        else if flt_gt ntu (Float64.lit 10000 10)
             then Float32.of_double (Float64.lit 10000 10)
        else ntu) /\
     flt_lt (konversiKeNTU tegangan) (Float64.lit 0 10) = false /\
     flt_gt (konversiKeNTU tegangan) (Float64.lit 10000 10) = false /\
     (is_nan tegangan = false ->
      in_range (Float64.lit 0 10) (Float64.lit 10000 10) (konversiKeNTU tegangan) = true)) /\
  konversiKeNTU (Float32.of_double (Float64.lit 33 10)) = Float32.of_int 0 /\
  konversiKeNTU (Float32.of_double (Float64.lit 0 10)) = Float32.of_int 1000.
Proof.
  split; [|split; vm_compute; reflexivity].
  intros v ntu. split; [|split; [|split]].
  - unfold konversiKeNTU. change (ntu_linear v) with ntu. cbv zeta.
    destruct (flt_lt ntu (Float64.lit 0 10)); reflexivity.
  - unfold konversiKeNTU.
    apply clamp_never_outside; vm_compute; reflexivity.
  - unfold konversiKeNTU.
    apply clamp_never_outside; vm_compute; reflexivity.
  - intros Hv. unfold konversiKeNTU.
    apply clamp_in_range;
      [apply ntu_linear_not_nan, Hv | vm_compute; reflexivity ..].
Qed.

Lemma konversiKeNTU_clamped_witness :
  is_nan (adcKeVoltage 1000) = false /\
  in_range (Float64.lit 0 10) (Float64.lit 10000 10)
           (konversiKeNTU (adcKeVoltage 1000)) = true.
Proof.
  split; [vm_compute; reflexivity|].
  apply (proj1 konversiKeNTU_clamped (adcKeVoltage 1000)). vm_compute; reflexivity.
Defined.

(* ================================================================== *)
(** * Raw code to voltage *)
(* ================================================================== *)

Lemma SFleb_trans x y z :
  SFleb x y = true -> SFleb y z = true -> SFleb x z = true.
Proof.
  unfold SFleb.
  destruct x as [sx|sx| |sx mx ex], y as [sy|sy| |sy my ey],
           z as [sz|sz| |sz mz ez]; simpl; try discriminate;
    try (destruct sx); try (destruct sy); try (destruct sz);
    try discriminate; try reflexivity;
    change (PosDef.Pos.compare_cont Eq mx my) with (Pos.compare mx my);
    change (PosDef.Pos.compare_cont Eq my mz) with (Pos.compare my mz);
    change (PosDef.Pos.compare_cont Eq mx mz) with (Pos.compare mx mz);
    destruct (Z.compare_spec ex ey), (Z.compare_spec ey ez),
             (Z.compare_spec ex ez); try discriminate; try reflexivity; try lia;
    destruct (Pos.compare_spec mx my), (Pos.compare_spec my mz),
             (Pos.compare_spec mx mz); simpl;
    try discriminate; try reflexivity; try lia.
Qed.

Lemma SFleb_refl x : is_nan x = false -> SFleb x x = true.
Proof.
  unfold SFleb. destruct x as [sx|sx| |sx mx ex]; simpl; try discriminate; intros _.
  - reflexivity.
  - destruct sx; reflexivity.
  - change (PosDef.Pos.compare_cont Eq mx mx) with (Pos.compare mx mx).
    rewrite Z.compare_refl, Pos.compare_refl. destruct sx; reflexivity.
Qed.

Lemma ADC_RESOLUTION_value :
  Float32.of_int ADC_RESOLUTION = S754_finite false 16773120 (-12).
Proof. vm_compute. reflexivity. Qed.

Lemma adcKeVoltage_not_nan r : is_nan (adcKeVoltage r) = false.
Proof.
  unfold adcKeVoltage, Float32.div, Float32.mul.
  rewrite ADC_RESOLUTION_value, V_REF_value.
  apply SFdiv_finite_r_not_nan, SFmul_finite_r_not_nan, binary_normalize_not_nan.
Qed.

Lemma check_codes_spec (P : Z -> bool) (n : nat) :
  check_codes P n = true -> forall z, 0 <= z < Z.of_nat n -> P z = true.
Proof.
  unfold check_codes. rewrite forallb_forall. intros H z Hz.
  rewrite <- (Z2Nat.id z) by lia. apply H, in_seq. lia.
Qed.

Lemma adcKeVoltage_step r :
  0 <= r < 4095 -> SFleb (adcKeVoltage r) (adcKeVoltage (r + 1)) = true.
Proof.
  apply (check_codes_spec
           (fun r => SFleb (adcKeVoltage r) (adcKeVoltage (r + 1))) 4095).
  vm_compute. reflexivity.
Qed.

Lemma adcKeVoltage_bounds r :
  0 <= r <= 4095 ->
  in_range (Float64.lit 0 10) (Float64.of_float V_REF) (adcKeVoltage r) = true /\
  in_range (Float64.lit 0 10) (Float64.lit 33 10) (adcKeVoltage r) = true.
Proof.
  intros Hr. apply andb_true_iff.
  apply (check_codes_spec
           (fun r => in_range (Float64.lit 0 10) (Float64.of_float V_REF) (adcKeVoltage r)
                     && in_range (Float64.lit 0 10) (Float64.lit 33 10) (adcKeVoltage r))
           4096); [vm_compute; reflexivity | lia].
Qed.

Lemma adcKeVoltage_le_nat (d : nat) r :
  0 <= r -> r + Z.of_nat d <= 4095 ->
  SFleb (adcKeVoltage r) (adcKeVoltage (r + Z.of_nat d)) = true.
Proof.
  induction d as [|d IH]; intros H0 H1.
  - rewrite Z.add_0_r. apply SFleb_refl, adcKeVoltage_not_nan.
  - apply SFleb_trans with (adcKeVoltage (r + Z.of_nat d)).
    + apply IH; lia.
    + replace (r + Z.of_nat (S d)) with (r + Z.of_nat d + 1) by lia.
      apply adcKeVoltage_step. lia.
Qed.

(** C3: for all raw codes in [0,4095], adcKeVoltage computes
    raw * V_REF / ADC_RESOLUTION in single precision, is monotonically
    non-decreasing in the code, and its result lies between 0 and 3.3 (both
    the stored constant V_REF and the decimal 3.3). *)
Theorem adcKeVoltage_monotone_bounded (r1 r2 : Z) :
  0 <= r1 -> r1 <= r2 -> r2 <= 4095 ->
  adcKeVoltage r1 =
    Float32.div (Float32.mul (Float32.of_int r1) V_REF) (Float32.of_int ADC_RESOLUTION) /\
  SFleb (adcKeVoltage r1) (adcKeVoltage r2) = true /\
  in_range (Float64.lit 0 10) (Float64.of_float V_REF) (adcKeVoltage r1) = true /\
  in_range (Float64.lit 0 10) (Float64.lit 33 10) (adcKeVoltage r1) = true.
Proof.
  intros H0 H12 H2. split; [reflexivity|]. split.
  - replace r2 with (r1 + Z.of_nat (Z.to_nat (r2 - r1))) by lia.
    apply adcKeVoltage_le_nat; lia.
  - apply adcKeVoltage_bounds. lia.
Qed.

Lemma adcKeVoltage_monotone_bounded_witness :
  SFleb (adcKeVoltage 1000) (adcKeVoltage 3000) = true /\
  in_range (Float64.lit 0 10) (Float64.lit 33 10) (adcKeVoltage 1000) = true.
Proof.
  pose proof (adcKeVoltage_monotone_bounded 1000 3000
                ltac:(lia) ltac:(lia) ltac:(lia)) as H.
  split; [apply H | apply H].
Defined.

(* ================================================================== *)
(** * Threshold bands *)
(* ================================================================== *)

Local Open Scope string_scope.

Lemma SFleb_not_nan x y : SFleb x y = true -> is_nan x = false /\ is_nan y = false.
Proof.
  unfold SFleb. destruct x, y; simpl; try discriminate; auto.
Qed.

Lemma SFltb_not_nan x y : SFltb x y = true -> is_nan x = false /\ is_nan y = false.
Proof.
  unfold SFltb. destruct x, y; simpl; try discriminate; auto.
Qed.

Lemma SFleb_negb_SFltb x y :
  is_nan x = false -> is_nan y = false -> SFleb y x = negb (SFltb x y).
Proof.
  intros Hx Hy. destruct (SFcompare_not_nan x y Hx Hy) as [c Hc].
  unfold SFltb, SFleb. rewrite (SFcompare_antisym _ _ _ Hc), Hc.
  destruct c; reflexivity.
Qed.

Lemma SFltb_negb_SFleb x y :
  is_nan x = false -> is_nan y = false -> SFltb y x = negb (SFleb x y).
Proof.
  intros Hx Hy. destruct (SFcompare_not_nan x y Hx Hy) as [c Hc].
  unfold SFltb, SFleb. rewrite (SFcompare_antisym _ _ _ Hc), Hc.
  destruct c; reflexivity.
Qed.

Lemma SFltb_leb_trans x y z :
  SFltb x y = true -> SFleb y z = true -> SFltb x z = true.
Proof.
  intros Hxy Hyz.
  destruct (SFltb_not_nan _ _ Hxy) as [Hx Hy].
  destruct (SFleb_not_nan _ _ Hyz) as [_ Hz].
  destruct (SFltb x z) eqn:E; [reflexivity|].
  pose proof (SFltb_false_SFleb _ _ Hx Hz E) as Hzx.
  pose proof (SFleb_trans _ _ _ Hyz Hzx) as Hyx.
  rewrite (SFltb_SFleb_false _ _ Hxy) in Hyx. discriminate.
Qed.

(** The thresholds of [kategoriPH], in increasing order. *)
Lemma pH_thresholds_ordered :
  SFleb (Float64.lit 40 10) (Float64.lit 65 10) = true /\
  SFleb (Float64.lit 65 10) (Float64.lit 85 10) = true /\
  SFleb (Float64.lit 85 10) (Float64.lit 110 10) = true.
Proof. repeat split; vm_compute; reflexivity. Qed.

Lemma pH_thresholds_not_nan :
  is_nan (Float64.lit 40 10) = false /\ is_nan (Float64.lit 65 10) = false /\
  is_nan (Float64.lit 85 10) = false /\ is_nan (Float64.lit 110 10) = false.
Proof. repeat split; vm_compute; reflexivity. Qed.

Lemma string_neq (s t : string) : String.eqb s t = false -> s <> t.
Proof. apply String.eqb_neq. Qed.

Ltac labels_differ :=
  match goal with
  | H : @eq string _ _ |- _ =>
      exfalso; revert H; apply string_neq; vm_compute; reflexivity
  end.

(** C4, as stated: were every band but the last closed on its upper
    bound, pH 4.0 would be "very acidic" and pH 6.5 "acidic"; the code puts
    them in the next band. *)
Lemma kategoriPH_upper_bounds_open :
  kategoriPH (Float32.of_double (Float64.lit 40 10)) <> "Sangat Asam ⚠️" /\
  kategoriPH (Float32.of_double (Float64.lit 40 10)) = "Asam" /\
  kategoriPH (Float32.of_double (Float64.lit 65 10)) <> "Asam" /\
  kategoriPH (Float32.of_double (Float64.lit 65 10)) = "Normal ✅".
Proof.
  repeat split; try (vm_compute; reflexivity);
    apply string_neq; vm_compute; reflexivity.
Qed.

(** C4 (amended): for every pH value kategoriPH assigns exactly one of
    five bands by the ordered thresholds: "Sangat Asam" for ph < 4, "Asam"
    for 4 <= ph < 6.5, "Normal" for 6.5 <= ph <= 8.5, "Basa" for
    8.5 < ph <= 11 and "Sangat Basa" otherwise (ph > 11, or NaN). The first
    two bands are open on their upper bound (4 and 6.5 belong to the next
    band), the third and fourth are closed on it, the last is open-ended;
    the bands are exhaustive and pairwise disjoint. *)
Theorem kategoriPH_bands (ph : float) :
  (kategoriPH ph = "Sangat Asam ⚠️" <-> flt_lt ph (Float64.lit 40 10) = true) /\
  (kategoriPH ph = "Asam" <->
     flt_ge ph (Float64.lit 40 10) = true /\ flt_lt ph (Float64.lit 65 10) = true) /\
  (kategoriPH ph = "Normal ✅" <->
     flt_ge ph (Float64.lit 65 10) = true /\ flt_le ph (Float64.lit 85 10) = true) /\
  (kategoriPH ph = "Basa" <->
     flt_gt ph (Float64.lit 85 10) = true /\ flt_le ph (Float64.lit 110 10) = true) /\
  (kategoriPH ph = "Sangat Basa ⚠️" <->
     flt_gt ph (Float64.lit 110 10) = true \/ is_nan ph = true) /\
  In (kategoriPH ph) ["Sangat Asam ⚠️"; "Asam"; "Normal ✅"; "Basa"; "Sangat Basa ⚠️"] /\
  NoDup ["Sangat Asam ⚠️"; "Asam"; "Normal ✅"; "Basa"; "Sangat Basa ⚠️"].
Proof.
  destruct pH_thresholds_ordered as (O1 & O2 & O3).
  destruct pH_thresholds_not_nan as (N1 & N2 & N3 & N4).
  assert (ND : NoDup ["Sangat Asam ⚠️"; "Asam"; "Normal ✅"; "Basa"; "Sangat Basa ⚠️"]).
  { repeat constructor; simpl; intros H;
      repeat (destruct H as [H|H]; [labels_differ|]); exact H. }
  destruct (is_nan ph) eqn:Hnan.
  - destruct ph; try discriminate. clear Hnan O1 O2 O3 N1 N2 N3 N4.
    assert (K : kategoriPH S754_nan = "Sangat Basa ⚠️") by (vm_compute; reflexivity).
    rewrite K. clear K. unfold flt_lt, flt_ge, flt_gt, flt_le, SFltb, SFleb.
    change (Float64.of_float S754_nan) with S754_nan.
    rewrite !SFcompare_nan_l, !SFcompare_nan_r.
    repeat split; intros; try exact ND; clear ND;
      try labels_differ; try (intuition discriminate); simpl; auto 10.
  - assert (Hd : is_nan (Float64.of_float ph) = false)
      by (apply SFconv_not_nan; exact Hnan).
    unfold kategoriPH, flt_ge, flt_gt, flt_le, flt_lt.
    set (d := Float64.of_float ph) in *.
    rewrite (SFleb_negb_SFltb d _ Hd N1), (SFleb_negb_SFltb d _ Hd N2).
    rewrite (SFltb_negb_SFleb d _ Hd N3), (SFltb_negb_SFleb d _ Hd N4).
    pose proof (fun H => SFltb_leb_trans d _ _ H O1) as T1.
    pose proof (fun H => SFleb_trans d _ _ (SFltb_SFleb _ _ H) O2) as T2.
    pose proof (fun H => SFleb_trans d _ _ H O3) as T3.
    clear O1 O2 O3 N1 N2 N3 N4 Hd.
    destruct (SFltb d (Float64.lit 40 10));
      destruct (SFltb d (Float64.lit 65 10));
      destruct (SFleb d (Float64.lit 85 10));
      destruct (SFleb d (Float64.lit 110 10));
      try (specialize (T1 eq_refl); discriminate T1);
      try (specialize (T2 eq_refl); discriminate T2);
      try (specialize (T3 eq_refl); discriminate T3);
      clear T1 T2 T3 Hnan; clearbody d; simpl;
      repeat split; intros; try exact ND; clear ND;
      try labels_differ; try reflexivity; try (intuition discriminate);
      simpl; auto 10.
Qed.

Lemma kategoriPH_bands_witness :
  flt_ge (Float32.of_int 7) (Float64.lit 65 10) = true /\
  flt_le (Float32.of_int 7) (Float64.lit 85 10) = true /\
  kategoriPH (Float32.of_int 7) = "Normal ✅".
Proof.
  assert (H : flt_ge (Float32.of_int 7) (Float64.lit 65 10) = true /\
              flt_le (Float32.of_int 7) (Float64.lit 85 10) = true)
    by (split; vm_compute; reflexivity).
  destruct (kategoriPH_bands (Float32.of_int 7)) as (_ & _ & B & _).
  split; [apply H | split; [apply H | apply (proj2 B H)]].
Defined.

(* ================================================================== *)
(** * The worked example at 1.65 V *)
(* ================================================================== *)

(** C5, as stated: the turbidity computed at 1.65 V is exactly 500, and
    500 is not below the threshold of "Sangat Keruh". *)
Lemma turbidity_500_not_sangat_keruh :
  kategoriTurbidity (konversiKeNTU (Float32.of_double (Float64.lit 165 100)))
  <> "Sangat Keruh ⚠️".
Proof. apply string_neq. vm_compute. reflexivity. Qed.

(** C5 (amended): at the input voltage 1.65 the acidity conversion yields
    14680065 * 2^-21, which is 7.0 to within one millionth and classifies
    as "Normal"; the turbidity conversion yields exactly 500, which
    classifies as "Ekstrem Keruh", the band "Sangat Keruh" being
    200 <= ntu < 500. *)
Theorem example_1_65_volt :
  let v := Float32.of_double (Float64.lit 165 100) in
  konversiKePH v = S754_finite false 14680065 (-21) /\
  in_range (Float64.lit 6999999 1000000) (Float64.lit 7000001 1000000)
           (konversiKePH v) = true /\
  kategoriPH (konversiKePH v) = "Normal ✅" /\
  konversiKeNTU v = Float32.of_int 500 /\
  kategoriTurbidity (konversiKeNTU v) = "Ekstrem Keruh 🚨" /\
  kategoriTurbidity (Float32.of_double (Float64.lit 4999 10)) = "Sangat Keruh ⚠️" /\
  kategoriTurbidity (Float32.of_int 200) = "Sangat Keruh ⚠️".
Proof. repeat split; vm_compute; reflexivity. Qed.

Local Close Scope string_scope.

(* ================================================================== *)
(** * The averaging ADC reader *)
(* ================================================================== *)

Lemma wrap_signed32_small z : LONG_MIN <= z <= LONG_MAX -> wrap_signed32 z = z.
Proof.
  unfold LONG_MIN, LONG_MAX, wrap_signed32. intros H.
  rewrite Z.mod_small; lia.
Qed.

Lemma samples_from_S f start n :
  samples_from f start (S n) = f start :: samples_from f (S start) n.
Proof.
  unfold samples_from. simpl. rewrite Nat.add_0_r. f_equal.
  rewrite <- seq_shift, map_map. apply map_ext. intros k. f_equal. lia.
Qed.

Lemma samples_from_length f start n : List.length (samples_from f start n) = n.
Proof. unfold samples_from. rewrite length_map, length_seq. reflexivity. Qed.

Lemma samples_from_snoc f start n :
  samples_from f start (S n) = samples_from f start n ++ [f (start + n)%nat].
Proof.
  unfold samples_from. rewrite seq_S, map_app. reflexivity.
Qed.

Lemma sum_app l1 l2 : sum (l1 ++ l2) = sum l1 + sum l2.
Proof. induction l1 as [|x l1 IH]; simpl; [reflexivity | rewrite IH; lia]. Qed.

Lemma sum_bounds lo hi l :
  Forall (fun s => lo <= s <= hi) l ->
  lo * Z.of_nat (List.length l) <= sum l <= hi * Z.of_nat (List.length l).
Proof.
  induction 1 as [|x l Hx Hl IH]; simpl List.length; simpl sum; [lia|].
  rewrite Nat2Z.inj_succ. lia.
Qed.

Lemma minimum_le l x : In x l -> minimum l <= x.
Proof.
  unfold minimum. generalize (hd 0 l) as d.
  induction l as [|y l IH]; intros d H; simpl in *; [contradiction|].
  destruct H as [->|H]; [lia|]. specialize (IH d H). lia.
Qed.

Lemma maximum_ge l x : In x l -> x <= maximum l.
Proof.
  unfold maximum. generalize (hd 0 l) as d.
  induction l as [|y l IH]; intros d H; simpl in *; [contradiction|].
  destruct H as [->|H]; [lia|]. specialize (IH d H). lia.
Qed.

(** One turn of the loop body on the board. *)
Lemma after_sampling_S pin n w :
  upd_board (after_sampling pin n)
            (upd_board (tick 2) (upd_board (log_adc pin) w))
  = upd_board (after_sampling pin (S n)) w.
Proof.
  unfold upd_board, after_sampling, tick, log_adc.
  cbn [board readings lastSensorRead lastDataSend clock adc adc_log probe
       probe_requests wifi wifi_polls http http_log serial repeat].
  f_equal. f_equal; [lia | rewrite <- app_assoc; reflexivity].
Qed.

Lemma after_sampling_O pin w : upd_board (after_sampling pin 0) w = w.
Proof.
  destruct w as [r t1 t2 b]. destruct b. unfold upd_board, after_sampling.
  cbn [board readings lastSensorRead lastDataSend clock adc adc_log probe
       probe_requests wifi wifi_polls http http_log serial repeat].
  rewrite app_nil_r. do 2 f_equal. lia.
Qed.

Lemma upcoming_step pin n w :
  upcoming (upd_board (tick 2) (upd_board (log_adc pin) w)) pin n
  = samples_from (adc (board w) pin) (S (List.length (adc_log (board w)))) n.
Proof.
  unfold upcoming. simpl. rewrite length_app. simpl.
  rewrite Nat.add_1_r. reflexivity.
Qed.

(** While the exact sum fits a [long], the accumulator holds it. *)
Lemma sampling_loop_exact n : forall pin total w,
  0 <= total ->
  Forall (fun s => 0 <= s) (upcoming w pin n) ->
  total + sum (upcoming w pin n) <= LONG_MAX ->
  sampling_loop n pin total w
  = (total + sum (upcoming w pin n), upd_board (after_sampling pin n) w).
Proof.
  induction n as [|n IH]; intros pin total w Ht Hs Hb.
  - cbn [sampling_loop]. unfold ret, upcoming. cbn [samples_from seq map sum fold_right].
    rewrite Z.add_0_r, after_sampling_O. reflexivity.
  - unfold upcoming in Hs, Hb. rewrite samples_from_S in Hs, Hb.
    inversion Hs as [|x l Hx Hl]; subst. simpl sum in Hb.
    set (v := adc (board w) pin (List.length (adc_log (board w)))) in *.
    assert (Hsum : 0 <= sum (samples_from (adc (board w) pin)
                               (S (List.length (adc_log (board w)))) n)).
    { clear -Hl. induction Hl; simpl; lia. }
    cbn [sampling_loop]. unfold bind at 1. unfold analogRead at 1. fold v.
    unfold bind at 1. unfold delay at 1, modify at 1.
    rewrite IH.
    + rewrite upcoming_step, after_sampling_S.
      rewrite wrap_signed32_small by (unfold LONG_MIN, LONG_MAX in *; lia).
      unfold upcoming. rewrite samples_from_S. fold v. simpl sum. f_equal. lia.
    + rewrite wrap_signed32_small by (unfold LONG_MIN, LONG_MAX in *; lia). lia.
    + rewrite upcoming_step. exact Hl.
    + rewrite upcoming_step.
      rewrite wrap_signed32_small by (unfold LONG_MIN, LONG_MAX in *; lia). lia.
Qed.

Lemma samples_from_prefix (P : Z -> Prop) f start j n :
  (j <= n)%nat -> Forall P (samples_from f start n) -> Forall P (samples_from f start j).
Proof.
  unfold samples_from. rewrite !Forall_forall. intros Hj H x Hx.
  apply H. rewrite in_map_iff in *. destruct Hx as (k & <- & Hk).
  exists k. split; [reflexivity|]. rewrite in_seq in *. lia.
Qed.

Lemma sum_between_extremes l :
  minimum l * Z.of_nat (List.length l) <= sum l <= maximum l * Z.of_nat (List.length l).
Proof.
  apply sum_bounds, Forall_forall. intros x Hx.
  split; [apply minimum_le | apply maximum_ge]; exact Hx.
Qed.

Lemma all_within_Forall lo hi l :
  all_within lo hi l = true -> Forall (fun s => lo <= s <= hi) l.
Proof.
  unfold all_within. rewrite forallb_forall, Forall_forall.
  intros H x Hx. specialize (H x Hx). lia.
Qed.

Lemma upcoming_length w pin n : List.length (upcoming w pin n) = n.
Proof. apply samples_from_length. Qed.

Lemma sum_upcoming_bounds lo hi w pin n :
  Forall (fun s => lo <= s <= hi) (upcoming w pin n) ->
  lo * Z.of_nat n <= sum (upcoming w pin n) <= hi * Z.of_nat n.
Proof.
  intros H. pose proof (sum_bounds lo hi _ H) as B.
  rewrite upcoming_length in B. exact B.
Qed.

Lemma sum_upcoming_extremes w pin n :
  minimum (upcoming w pin n) * Z.of_nat n <= sum (upcoming w pin n)
  <= maximum (upcoming w pin n) * Z.of_nat n.
Proof.
  pose proof (sum_between_extremes (upcoming w pin n)) as E.
  rewrite upcoming_length in E. exact E.
Qed.

Lemma bacaADCRataRata_exact pin w :
  Forall (fun s => 0 <= s) (upcoming w pin 10) ->
  sum (upcoming w pin 10) <= LONG_MAX ->
  bacaADCRataRata pin w
  = (sum (upcoming w pin 10) / JUMLAH_SAMPLING, upd_board (after_sampling pin 10) w).
Proof.
  intros Hs Hb. unfold bacaADCRataRata, bind.
  change (Z.to_nat JUMLAH_SAMPLING) with 10%nat.
  rewrite sampling_loop_exact by (try assumption; lia).
  rewrite Z.add_0_l. unfold ret. f_equal.
  assert (H0 : 0 <= sum (upcoming w pin 10)).
  { clear -Hs. induction Hs; simpl; lia. }
  unfold JUMLAH_SAMPLING. rewrite Z.quot_div_nonneg by lia.
  apply wrap_signed32_small.
  pose proof (Z.div_pos _ 10 H0 ltac:(lia)).
  pose proof (Z.div_le_upper_bound (sum (upcoming w pin 10)) 10 LONG_MAX ltac:(lia)).
  unfold LONG_MIN, LONG_MAX in *. lia.
Qed.

(** C6: for every sequence of analog samples (values of the 16-bit
    unsigned type that analogRead returns), bacaADCRataRata reads its pin
    exactly JUMLAH_SAMPLING = 10 times and returns the integer-truncated
    arithmetic mean of those ten samples, the floor of their sum divided by
    ten. *)
Theorem bacaADCRataRata_mean (pin : Z) (w : World) :
  all_within 0 (2^16 - 1) (upcoming w pin 10) = true ->
  eval (bacaADCRataRata pin) w = sum (upcoming w pin 10) / 10 /\
  List.length (upcoming w pin 10) = Z.to_nat JUMLAH_SAMPLING /\
  adc_log (board (exec (bacaADCRataRata pin) w))
  = adc_log (board w) ++ repeat pin (Z.to_nat JUMLAH_SAMPLING) /\
  exec (bacaADCRataRata pin) w = upd_board (after_sampling pin 10) w.
Proof.
  intros Hs. apply all_within_Forall in Hs.
  assert (Hpos : Forall (fun s => 0 <= s) (upcoming w pin 10)).
  { eapply Forall_impl; [|exact Hs]. simpl. intros; lia. }
  assert (Hb : sum (upcoming w pin 10) <= LONG_MAX).
  { pose proof (sum_upcoming_bounds 0 (2^16 - 1) w pin 10) as B.
    unfold LONG_MAX. specialize (B Hs). lia. }
  unfold eval, exec. rewrite (bacaADCRataRata_exact pin w Hpos Hb).
  repeat split; reflexivity.
Qed.

Lemma bacaADCRataRata_mean_witness :
  all_within 0 (2^16 - 1) (upcoming wokwi_world PH_SENSOR_PIN 10) = true /\
  eval (bacaADCRataRata PH_SENSOR_PIN) wokwi_world = 2004.
Proof.
  assert (H : all_within 0 (2^16 - 1) (upcoming wokwi_world PH_SENSOR_PIN 10) = true)
    by (vm_compute; reflexivity).
  split; [exact H|].
  rewrite (proj1 (bacaADCRataRata_mean PH_SENSOR_PIN wokwi_world H)).
  vm_compute. reflexivity.
Defined.

(** C9: for ten samples in [0,4095], bacaADCRataRata returns an integer
    in [0,4095] that lies between the smallest and the largest sample; after
    every number of iterations the accumulator equals the exact partial sum,
    which is at most 10 * 4095 = 40950 and so within the range of long, and
    the result is the exact truncated mean. *)
Theorem bacaADCRataRata_bounded (pin : Z) (w : World) :
  all_within 0 ADC_RESOLUTION (upcoming w pin 10) = true ->
  let samples := upcoming w pin 10 in
  let r := eval (bacaADCRataRata pin) w in
  0 <= r <= ADC_RESOLUTION /\
  minimum samples <= r <= maximum samples /\
  r = Z.quot (sum samples) JUMLAH_SAMPLING /\
  (forall j, (j <= 10)%nat ->
     eval (sampling_loop j pin 0) w = sum (upcoming w pin j) /\
     LONG_MIN <= 0 <= sum (upcoming w pin j) /\
     sum (upcoming w pin j) <= 10 * ADC_RESOLUTION /\
     10 * ADC_RESOLUTION <= LONG_MAX).
Proof.
  intros Hs samples r. apply all_within_Forall in Hs.
  assert (Hpart : forall j, (j <= 10)%nat ->
            Forall (fun s => 0 <= s) (upcoming w pin j) /\
            0 <= sum (upcoming w pin j) <= 10 * ADC_RESOLUTION).
  { intros j Hj.
    pose proof (samples_from_prefix _ _ _ j 10 Hj Hs) as Hp. fold (upcoming w pin j) in Hp.
    pose proof (sum_upcoming_bounds 0 ADC_RESOLUTION _ _ _ Hp) as B.
    split; [eapply Forall_impl; [|exact Hp]; simpl; intros; lia|].
    unfold ADC_RESOLUTION in *. lia. }
  destruct (Hpart 10%nat (le_n _)) as [Hpos Hsum]. fold samples in Hpos, Hsum.
  assert (Hr : r = sum samples / 10).
  { unfold r, eval. rewrite bacaADCRataRata_exact; [reflexivity | exact Hpos |].
    fold samples. unfold LONG_MAX, ADC_RESOLUTION in *. lia. }
  pose proof (sum_upcoming_extremes w pin 10) as E. fold samples in E.
  change (Z.of_nat 10) with 10 in *. unfold ADC_RESOLUTION in *.
  repeat split.
  - rewrite Hr. apply Z.div_pos; lia.
  - rewrite Hr. apply Z.div_le_upper_bound; lia.
  - rewrite Hr. apply Z.div_le_lower_bound; lia.
  - rewrite Hr. apply Z.div_le_upper_bound; lia.
  - rewrite Hr. unfold JUMLAH_SAMPLING. rewrite Z.quot_div_nonneg; lia.
  - unfold eval. destruct (Hpart j H) as [Hp Hb].
    rewrite sampling_loop_exact; [simpl; lia | lia | exact Hp |].
    unfold LONG_MAX, ADC_RESOLUTION in *. lia.
  - unfold LONG_MIN. lia.
  - apply (Hpart j H).
  - apply (Hpart j H).
  - unfold LONG_MAX, ADC_RESOLUTION. lia.
Qed.

Lemma bacaADCRataRata_bounded_witness :
  all_within 0 ADC_RESOLUTION (upcoming wokwi_world PH_SENSOR_PIN 10) = true /\
  0 <= eval (bacaADCRataRata PH_SENSOR_PIN) wokwi_world <= ADC_RESOLUTION.
Proof.
  assert (H : all_within 0 ADC_RESOLUTION (upcoming wokwi_world PH_SENSOR_PIN 10) = true)
    by (vm_compute; reflexivity).
  split; [exact H|].
  apply (bacaADCRataRata_bounded PH_SENSOR_PIN wokwi_world H).
Defined.

(* ================================================================== *)
(** * Running the monad *)
(* ================================================================== *)

Local Open Scope monad_scope.

Lemma exec_bind {A B} (m : M A) (k : A -> M B) w :
  exec (bind m k) w = exec (k (eval m w)) (exec m w).
Proof. unfold exec, eval, bind. destruct (m w). reflexivity. Qed.

Lemma eval_bind {A B} (m : M A) (k : A -> M B) w :
  eval (bind m k) w = eval (k (eval m w)) (exec m w).
Proof. unfold exec, eval, bind. destruct (m w). reflexivity. Qed.

Lemma exec_ret {A} (a : A) w : exec (ret a) w = w.
Proof. reflexivity. Qed.

Lemma exec_gets {A} (f : World -> A) w : exec (gets f) w = w.
Proof. reflexivity. Qed.

Lemma eval_gets {A} (f : World -> A) w : eval (gets f) w = f w.
Proof. reflexivity. Qed.

Lemma exec_modify f w : exec (modify f) w = f w.
Proof. reflexivity. Qed.

Lemma exec_Serial_print s w : exec (Serial_print s) w = upd_board (log_serial s) w.
Proof. reflexivity. Qed.

Lemma exec_Serial_println s w :
  exec (Serial_println s) w = upd_board (log_serial (s ++ CRLF)) w.
Proof. reflexivity. Qed.

Ltac step_monad :=
  repeat first
    [ rewrite exec_bind; cbv beta
    | rewrite exec_Serial_println
    | rewrite exec_Serial_print
    | rewrite exec_modify
    | rewrite exec_gets
    | rewrite eval_gets
    | rewrite exec_ret ].

(* ================================================================== *)
(** * What each procedure leaves alone *)
(* ================================================================== *)

Lemma sampling_loop_frame n : forall pin total w,
  beyond_adc (exec (sampling_loop n pin total) w) = beyond_adc w.
Proof.
  induction n as [|n IH]; intros pin total w; [reflexivity|].
  cbn [sampling_loop]. rewrite !exec_bind. cbv beta. rewrite IH. reflexivity.
Qed.

Lemma bacaADCRataRata_frame pin w :
  beyond_adc (exec (bacaADCRataRata pin) w) = beyond_adc w.
Proof.
  unfold bacaADCRataRata. rewrite exec_bind, exec_ret. apply sampling_loop_frame.
Qed.

Lemma beyond_adc_fields w1 w2 :
  beyond_adc w1 = beyond_adc w2 ->
  readings w1 = readings w2 /\ lastSensorRead w1 = lastSensorRead w2 /\
  lastDataSend w1 = lastDataSend w2 /\
  probe (board w1) = probe (board w2) /\
  probe_requests (board w1) = probe_requests (board w2) /\
  wifi (board w1) = wifi (board w2) /\
  wifi_polls (board w1) = wifi_polls (board w2) /\
  http (board w1) = http (board w2) /\
  http_log (board w1) = http_log (board w2) /\
  serial (board w1) = serial (board w2).
Proof.
  unfold beyond_adc. intros H. injection H as -> -> -> _ -> -> -> -> -> -> ->.
  repeat split; reflexivity.
Qed.

Section Frames.
Context {core : ArduinoCore}.

Lemma write_all_snoc l c w :
  upd_board (log_serial c) (upd_board (write_all l) w)
  = upd_board (write_all (l ++ [c])) w.
Proof.
  unfold upd_board, log_serial, write_all.
  cbn [board readings lastSensorRead lastDataSend clock adc adc_log probe
       probe_requests wifi wifi_polls http http_log serial].
  rewrite app_assoc. reflexivity.
Qed.

Lemma write_all_start c w :
  upd_board (log_serial c) w = upd_board (write_all [c]) w.
Proof. reflexivity. Qed.

(** The console table only writes: its chunks, in order, after what was
    written before. *)
Lemma tampilkanDataSerial_writes w :
  exec tampilkanDataSerial w = upd_board (write_all (table (readings w))) w.
Proof.
  unfold table.
  cbv [tampilkanDataSerial exec bind gets Serial_println Serial_print modify
       snd fst upd_board log_serial write_all board serial readings
       lastSensorRead lastDataSend clock adc adc_log probe probe_requests
       wifi wifi_polls http http_log blank_board].
  do 2 f_equal. rewrite <- !app_assoc. reflexivity.
Qed.

End Frames.

(* ================================================================== *)
(** * The sampling and reporting loop *)
(* ================================================================== *)

Lemma bacaADCRataRata_peripherals pin w :
  peripherals (exec (bacaADCRataRata pin) w) = peripherals w.
Proof.
  destruct (beyond_adc_fields _ _ (bacaADCRataRata_frame pin w))
    as (_ & _ & H1 & H2 & H3 & H4 & H5 & H6 & H7 & H8).
  unfold peripherals, network. congruence.
Qed.

Lemma peripherals_upd_readings f w : peripherals (upd_readings f w) = peripherals w.
Proof. reflexivity. Qed.

Lemma peripherals_set_lastSensorRead t w :
  peripherals (set_lastSensorRead t w) = peripherals w.
Proof. reflexivity. Qed.

Section Loop.
Context {core : ArduinoCore}.

Ltac run_reporter :=
  cbv [kirimDataKeServer sending_tick exec eval bind WiFi_status gets ret
       Serial_println Serial_print modify http_GET http_getString snd fst].

(** ** The reporter *)

Lemma kirimDataKeServer_readings w :
  readings (exec kirimDataKeServer w) = readings w.
Proof.
  run_reporter.
  destruct (_ =? WL_CONNECTED); [|reflexivity].
  destruct (_ >? 0); [|reflexivity].
  destruct (_ =? HTTP_CODE_OK); reflexivity.
Qed.

Lemma sending_tick_readings now w :
  readings (exec (sending_tick now) w) = readings w.
Proof.
  unfold sending_tick. rewrite exec_bind, exec_gets, eval_gets.
  destruct (_ >=? DATA_SEND_INTERVAL); [|reflexivity].
  rewrite exec_bind, exec_modify, kirimDataKeServer_readings. reflexivity.
Qed.

Lemma kirimDataKeServer_http_log w :
  http_log (board (exec kirimDataKeServer w))
  = if wifi (board w) (wifi_polls (board w)) =? WL_CONNECTED
    then http_log (board w) ++ [GET (serverPath (readings w))]
    else http_log (board w).
Proof.
  run_reporter.
  destruct (_ =? WL_CONNECTED); [|reflexivity].
  destruct (_ >? 0); [|reflexivity].
  destruct (_ =? HTTP_CODE_OK); reflexivity.
Qed.

Lemma kirimDataKeServer_appends w :
  exists later,
    serial (board (exec kirimDataKeServer w)) = serial (board w) ++ later.
Proof.
  run_reporter.
  destruct (_ =? WL_CONNECTED); [|eexists; reflexivity].
  destruct (_ >? 0); [|eexists; cbn [upd_board log_serial log_http board serial];
                       rewrite <- !app_assoc; reflexivity].
  destruct (_ =? HTTP_CODE_OK); eexists;
    cbn [upd_board log_serial log_http board serial];
    rewrite <- !app_assoc; reflexivity.
Qed.

Lemma sending_tick_appends now w :
  exists later,
    serial (board (exec (sending_tick now) w)) = serial (board w) ++ later.
Proof.
  unfold sending_tick. rewrite exec_bind, exec_gets, eval_gets.
  destruct (_ >=? DATA_SEND_INTERVAL).
  - rewrite exec_bind, exec_modify.
    destruct (kirimDataKeServer_appends (set_lastDataSend now w)) as [l Hl].
    exists l. exact Hl.
  - exists []. rewrite app_nil_r. reflexivity.
Qed.

Lemma queryString_pairs r :
  queryString r =
  encode_query [("kualitas_air", String_of_float (nilaiPH r) 2);
                ("tahan", String_of_float (nilaiTurbidity r) 1);
                ("udara", String_of_float (nilaiSuhu r) 2);
                ("daya_listrik", String_of_double (Float64.lit 1000 10) 2)]%string.
Proof.
  unfold queryString, encode_query, daya_listrik.
  cbn [map fst snd String.concat].
  generalize (String_of_float (nilaiPH r) 2) as a.
  generalize (String_of_float (nilaiTurbidity r) 1) as b.
  generalize (String_of_float (nilaiSuhu r) 2) as c.
  generalize (String_of_double (Float64.lit 1000 10) 2) as d.
  intros d c b a. cbn [String.append]. reflexivity.
Qed.

End Loop.

(* ================================================================== *)
(** * A small program logic *)
(* ================================================================== *)

Lemma preserves_bind {A B C} (f : World -> C) (m : M A) (k : A -> M B) :
  preserves f m -> (forall a, preserves f (k a)) -> preserves f (bind m k).
Proof.
  intros Hm Hk w. rewrite exec_bind, Hk, Hm. reflexivity.
Qed.

Lemma hoare_bind {A B} (P : World -> Prop) (Q : A -> World -> Prop)
      (R : B -> World -> Prop) (m : M A) (k : A -> M B) :
  hoare P m Q -> (forall a, hoare (Q a) (k a) R) -> hoare P (bind m k) R.
Proof.
  intros Hm Hk w Hw. rewrite exec_bind, eval_bind. apply Hk, Hm, Hw.
Qed.

(** A step that preserves [f] keeps the invariant [f w = x]. *)
Lemma hoare_preserves {A B C} (f : World -> C) (x : C) (R : B -> World -> Prop)
      (m : M A) (k : A -> M B) :
  preserves f m ->
  (forall a, hoare (fun w => f w = x) (k a) R) ->
  hoare (fun w => f w = x) (bind m k) R.
Proof.
  intros Hm Hk. apply hoare_bind with (Q := fun _ w => f w = x); [|exact Hk].
  intros w Hw. rewrite Hm. exact Hw.
Qed.

Lemma bacaADCRataRata_network pin : preserves network (bacaADCRataRata pin).
Proof.
  intros w. pose proof (bacaADCRataRata_peripherals pin w) as H.
  unfold peripherals in H. congruence.
Qed.

Lemma bacaADCRataRata_preserves_peripherals pin :
  preserves peripherals (bacaADCRataRata pin).
Proof. intros w. apply bacaADCRataRata_peripherals. Qed.

Section LoopTheorems.
Context {core : ArduinoCore}.

Ltac frame_step :=
  lazymatch goal with
  | |- preserves _ (bind _ _) => apply preserves_bind; [|intros ?]
  | |- preserves _ (if ?c then _ else _) => destruct c
  | |- preserves network (bacaADCRataRata _) => apply bacaADCRataRata_network
  | |- preserves peripherals (bacaADCRataRata _) =>
      apply bacaADCRataRata_preserves_peripherals
  | |- preserves _ tampilkanDataSerial =>
      intros ?; rewrite tampilkanDataSerial_writes; reflexivity
  | |- preserves _ _ => intros ?; reflexivity
  end.
Ltac frame := repeat frame_step.

(** ** The sampler *)

Lemma sampling_tick_network now : preserves network (sampling_tick now).
Proof. unfold sampling_tick. frame. Qed.

Lemma loop_split w :
  exec loop w
  = exec (sending_tick (wrap_unsigned32 (clock (board w))))
         (exec (sampling_tick (wrap_unsigned32 (clock (board w)))) w).
Proof.
  unfold loop. rewrite !exec_bind. reflexivity.
Qed.

Lemma exec_bacaSuhuDS18B20 w :
  exec bacaSuhuDS18B20 w = upd_board log_probe w /\
  eval bacaSuhuDS18B20 w = probe (board w) (S (probe_requests (board w))) 0.
Proof. split; reflexivity. Qed.

Ltac run_sampler :=
  repeat first
    [ rewrite exec_bind; cbv beta
    | rewrite exec_modify
    | rewrite exec_gets
    | rewrite eval_gets
    | rewrite exec_ret
    | rewrite exec_Serial_println
    | rewrite tampilkanDataSerial_writes
    | rewrite (proj1 (exec_bacaSuhuDS18B20 _))
    | rewrite (proj2 (exec_bacaSuhuDS18B20 _)) ].

(** A due sampling tick whose probe read compares equal to the sentinel. *)
Lemma sampling_tick_disconnected now w0 :
  (wrap_unsigned32 (now - lastSensorRead w0) >=? SENSOR_READ_INTERVAL) = true ->
  SFeqb (probe (board w0) (S (probe_requests (board w0))) 0)
        (Float32.of_int DEVICE_DISCONNECTED_C) = true ->
  let ws := exec (sampling_tick now) w0 in
  nilaiSuhu (readings ws) = Float32.of_double (Float64.lit 0 10) /\
  serial (board ws)
  = serial (board w0) ++ [(warning_DS18B20 ++ CRLF)%string] ++ table (readings ws).
Proof.
  intros Hdue Hsent ws. subst ws.
  unfold sampling_tick. rewrite exec_bind, exec_gets, eval_gets, Hdue.
  match goal with
  | |- context [exec ?m w0] =>
      refine ((_ : hoare (fun w => peripherals w = peripherals w0) m
                     (fun _ ws =>
                        nilaiSuhu (readings ws) = Float32.of_double (Float64.lit 0 10) /\
                        serial (board ws)
                        = serial (board w0) ++ [(warning_DS18B20 ++ CRLF)%string]
                          ++ table (readings ws))) w0 eq_refl)
  end.
  repeat (apply hoare_preserves; [solve [frame] | intros ?]).
  intros w Hw. unfold peripherals, network in Hw.
  injection Hw as _ _ _ _ _ Hprobe Hreq Hser.
  run_sampler.
  cbn [readings upd_readings set_nilaiSuhu nilaiSuhu board upd_board log_probe
       probe probe_requests].
  rewrite Hprobe, Hreq, Hsent.
  run_sampler.
  cbn [readings upd_readings set_nilaiSuhu nilaiSuhu board upd_board log_probe
       log_serial write_all serial].
  rewrite Hser, <- app_assoc. split; reflexivity.
Qed.

(** C10: kirimDataKeServer leaves rawPH, rawTurbidity, teganganPH,
    teganganTurbidity, nilaiPH, nilaiTurbidity and nilaiSuhu as they were,
    whatever the WiFi status and the HTTP outcome; so does the send tick of
    the loop that calls it. *)
Theorem kirimDataKeServer_keeps_readings (w : World) (currentMillis : Z) :
  let w' := exec kirimDataKeServer w in
  rawPH (readings w') = rawPH (readings w) /\
  rawTurbidity (readings w') = rawTurbidity (readings w) /\
  teganganPH (readings w') = teganganPH (readings w) /\
  teganganTurbidity (readings w') = teganganTurbidity (readings w) /\
  nilaiPH (readings w') = nilaiPH (readings w) /\
  nilaiTurbidity (readings w') = nilaiTurbidity (readings w) /\
  nilaiSuhu (readings w') = nilaiSuhu (readings w) /\
  readings (exec (sending_tick currentMillis) w) = readings w.
Proof.
  intros w'. subst w'. rewrite kirimDataKeServer_readings.
  repeat split; try reflexivity. apply sending_tick_readings.
Qed.

(** C8: the request kirimDataKeServer builds is a GET to the fixed
    endpoint HOST_NAME ++ PATH_NAME whose query string encodes exactly four
    key-value pairs: the stored acidity, turbidity and temperature and the
    constant power level 100.0. It is sent when WiFi is connected (no other
    request is made), and in a send tick of the loop the readings encoded
    are the ones the loop ends with, the most recent ones. *)
Theorem kirimDataKeServer_request (w : World) :
  let request r :=
    GET (HOST_NAME ++ PATH_NAME ++
         encode_query [("kualitas_air", String_of_float (nilaiPH r) 2);
                       ("tahan", String_of_float (nilaiTurbidity r) 1);
                       ("udara", String_of_float (nilaiSuhu r) 2);
                       ("daya_listrik", String_of_double (Float64.lit 1000 10) 2)])%string in
  let connected := wifi (board w) (wifi_polls (board w)) =? WL_CONNECTED in
  let now := wrap_unsigned32 (clock (board w)) in
  http_log (board (exec kirimDataKeServer w))
  = (if connected then http_log (board w) ++ [request (readings w)]
     else http_log (board w)) /\
  http_log (board (exec loop w))
  = (if (wrap_unsigned32 (now - lastDataSend w) >=? DATA_SEND_INTERVAL) && connected
     then http_log (board w) ++ [request (readings (exec loop w))]
     else http_log (board w)).
Proof.
  intros request connected now.
  assert (Hreq : forall r, GET (serverPath r) = request r).
  { intros r. unfold serverPath, request. rewrite queryString_pairs. reflexivity. }
  split.
  - rewrite kirimDataKeServer_http_log, Hreq. reflexivity.
  - rewrite loop_split. fold now.
    pose proof (sampling_tick_network now w) as N.
    set (ws := exec (sampling_tick now) w) in *.
    unfold network in N.
    injection N as N1 N2 N3 N4 N5.
    rewrite sending_tick_readings.
    unfold sending_tick. rewrite exec_bind, exec_gets, eval_gets, N1.
    destruct (_ >=? DATA_SEND_INTERVAL); cbn [andb].
    + rewrite exec_bind, exec_modify, kirimDataKeServer_http_log.
      cbn [set_lastDataSend board]. rewrite N2, N3, N5, Hreq. reflexivity.
    + rewrite exec_ret. exact N5.
Qed.

(** C7: in a sampling tick where the one-wire read compares equal to
    DEVICE_DISCONNECTED_C, the sampler logs the warning, stores the default
    temperature 0.0 and goes on: the table of the readings, default
    included, is printed right after the warning, the reporter's tick follows
    as in any other iteration, and the temperature stored at the end of the
    loop iteration is 0.0. *)
Theorem disconnected_probe_default (w : World) :
  let now := wrap_unsigned32 (clock (board w)) in
  wrap_unsigned32 (now - lastSensorRead w) >= SENSOR_READ_INTERVAL ->
  SFeqb (probe (board w) (S (probe_requests (board w))) 0)
        (Float32.of_int DEVICE_DISCONNECTED_C) = true ->
  let ws := exec (sampling_tick now) w in
  nilaiSuhu (readings ws) = Float32.of_double (Float64.lit 0 10) /\
  serial (board ws)
  = serial (board w) ++ [(warning_DS18B20 ++ CRLF)%string] ++ table (readings ws) /\
  exec loop w = exec (sending_tick now) ws /\
  nilaiSuhu (readings (exec loop w)) = Float32.of_double (Float64.lit 0 10) /\
  exists later,
    serial (board (exec loop w))
    = serial (board w) ++ [(warning_DS18B20 ++ CRLF)%string] ++ table (readings ws)
      ++ later.
Proof.
  intros now Hdue Hsent ws.
  assert (Hdue' : (wrap_unsigned32 (now - lastSensorRead w) >=? SENSOR_READ_INTERVAL) = true).
  { rewrite Z.geb_leb. apply Z.leb_le. lia. }
  destruct (sampling_tick_disconnected now w Hdue' Hsent) as [Hzero Hserial].
  fold ws in Hzero, Hserial.
  assert (Hloop : exec loop w = exec (sending_tick now) ws) by apply loop_split.
  repeat split; try assumption.
  - rewrite Hloop, sending_tick_readings. exact Hzero.
  - destruct (sending_tick_appends now ws) as [later Hlater].
    exists later. rewrite Hloop, Hlater, Hserial, <- !app_assoc. reflexivity.
Qed.

End LoopTheorems.

Lemma disconnected_probe_default_witness :
  nilaiSuhu (readings (exec (loop (core := wokwi_core)) wokwi_unplugged))
  = Float32.of_double (Float64.lit 0 10).
Proof.
  apply (disconnected_probe_default (core := wokwi_core) wokwi_unplugged).
  - vm_compute. discriminate.
  - vm_compute. reflexivity.
Defined.

(* ================================================================== *)
(** * Turbidity and temperature bands *)
(* ================================================================== *)

Local Open Scope string_scope.

Lemma turbidity_thresholds :
  (SFleb (Float64.lit 50 10) (Float64.lit 500 10) = true /\
   SFleb (Float64.lit 500 10) (Float64.lit 2000 10) = true /\
   SFleb (Float64.lit 2000 10) (Float64.lit 5000 10) = true) /\
  (is_nan (Float64.lit 50 10) = false /\ is_nan (Float64.lit 500 10) = false /\
   is_nan (Float64.lit 2000 10) = false /\ is_nan (Float64.lit 5000 10) = false).
Proof. repeat split; vm_compute; reflexivity. Qed.

(** X1: kategoriTurbidity assigns exactly one of five bands, every one of
    them open on its upper bound: "Jernih" for ntu < 5, "Sedikit Keruh" for
    5 <= ntu < 50, "Keruh" for 50 <= ntu < 200, "Sangat Keruh" for
    200 <= ntu < 500 and "Ekstrem Keruh" for ntu >= 500, and for NaN. *)
Theorem kategoriTurbidity_bands (ntu : float) :
  (kategoriTurbidity ntu = "Jernih ✅" <-> flt_lt ntu (Float64.lit 50 10) = true) /\
  (kategoriTurbidity ntu = "Sedikit Keruh" <->
     flt_ge ntu (Float64.lit 50 10) = true /\ flt_lt ntu (Float64.lit 500 10) = true) /\
  (kategoriTurbidity ntu = "Keruh" <->
     flt_ge ntu (Float64.lit 500 10) = true /\ flt_lt ntu (Float64.lit 2000 10) = true) /\
  (kategoriTurbidity ntu = "Sangat Keruh ⚠️" <->
     flt_ge ntu (Float64.lit 2000 10) = true /\ flt_lt ntu (Float64.lit 5000 10) = true) /\
  (kategoriTurbidity ntu = "Ekstrem Keruh 🚨" <->
     flt_ge ntu (Float64.lit 5000 10) = true \/ is_nan ntu = true) /\
  NoDup ["Jernih ✅"; "Sedikit Keruh"; "Keruh"; "Sangat Keruh ⚠️"; "Ekstrem Keruh 🚨"].
Proof.
  destruct turbidity_thresholds as ((O1 & O2 & O3) & (N1 & N2 & N3 & N4)).
  assert (ND : NoDup ["Jernih ✅"; "Sedikit Keruh"; "Keruh"; "Sangat Keruh ⚠️";
                      "Ekstrem Keruh 🚨"]).
  { repeat constructor; simpl; intros H;
      repeat (destruct H as [H|H]; [labels_differ|]); exact H. }
  destruct (is_nan ntu) eqn:Hnan.
  - destruct ntu; try discriminate. clear Hnan O1 O2 O3 N1 N2 N3 N4.
    assert (K : kategoriTurbidity S754_nan = "Ekstrem Keruh 🚨") by (vm_compute; reflexivity).
    rewrite K. clear K. unfold flt_lt, flt_ge, SFltb, SFleb.
    change (Float64.of_float S754_nan) with S754_nan.
    rewrite !SFcompare_nan_l, !SFcompare_nan_r.
    repeat split; intros; try exact ND; clear ND;
      try labels_differ; try (intuition discriminate); simpl; auto 10.
  - assert (Hd : is_nan (Float64.of_float ntu) = false)
      by (apply SFconv_not_nan; exact Hnan).
    unfold kategoriTurbidity, flt_ge, flt_lt.
    set (d := Float64.of_float ntu) in *.
    rewrite (SFleb_negb_SFltb d _ Hd N1), (SFleb_negb_SFltb d _ Hd N2),
            (SFleb_negb_SFltb d _ Hd N3), (SFleb_negb_SFltb d _ Hd N4).
    pose proof (fun H => SFltb_leb_trans d _ _ H O1) as T1.
    pose proof (fun H => SFltb_leb_trans d _ _ H O2) as T2.
    pose proof (fun H => SFltb_leb_trans d _ _ H O3) as T3.
    clear O1 O2 O3 N1 N2 N3 N4 Hd.
    destruct (SFltb d (Float64.lit 50 10));
      destruct (SFltb d (Float64.lit 500 10));
      destruct (SFltb d (Float64.lit 2000 10));
      destruct (SFltb d (Float64.lit 5000 10));
      try (specialize (T1 eq_refl); discriminate T1);
      try (specialize (T2 eq_refl); discriminate T2);
      try (specialize (T3 eq_refl); discriminate T3);
      clear T1 T2 T3 Hnan; clearbody d; simpl;
      repeat split; intros; try exact ND; clear ND;
      try labels_differ; try reflexivity; try (intuition discriminate);
      simpl; auto 10.
Qed.

Lemma kategoriTurbidity_bands_witness :
  flt_ge (Float32.of_int 200) (Float64.lit 2000 10) = true /\
  flt_lt (Float32.of_int 200) (Float64.lit 5000 10) = true /\
  kategoriTurbidity (Float32.of_int 200) = "Sangat Keruh ⚠️".
Proof.
  assert (H : flt_ge (Float32.of_int 200) (Float64.lit 2000 10) = true /\
              flt_lt (Float32.of_int 200) (Float64.lit 5000 10) = true)
    by (split; vm_compute; reflexivity).
  destruct (kategoriTurbidity_bands (Float32.of_int 200)) as (_ & _ & _ & B & _).
  split; [apply H | split; [apply H | apply (proj2 B H)]].
Defined.

Lemma suhu_thresholds :
  (SFleb (Float64.lit 0 10) (Float64.lit 150 10) = true /\
   SFleb (Float64.lit 150 10) (Float64.lit 250 10) = true /\
   SFleb (Float64.lit 250 10) (Float64.lit 300 10) = true /\
   SFleb (Float64.lit 300 10) (Float64.lit 400 10) = true) /\
  (is_nan (Float64.lit 0 10) = false /\ is_nan (Float64.lit 150 10) = false /\
   is_nan (Float64.lit 250 10) = false /\ is_nan (Float64.lit 300 10) = false /\
   is_nan (Float64.lit 400 10) = false).
Proof. repeat split; vm_compute; reflexivity. Qed.

(** X2: kategoriSuhu assigns exactly one of six bands, every one of them
    open on its upper bound: "Beku" below 0, "Dingin" on [0,15), "Sejuk" on
    [15,25), "Hangat" on [25,30), "Panas" on [30,40) and "Sangat Panas" from
    40 on, and for NaN. *)
Theorem kategoriSuhu_bands (suhu : float) :
  (kategoriSuhu suhu = "Beku ❄️" <-> flt_lt suhu (Float64.lit 0 10) = true) /\
  (kategoriSuhu suhu = "Dingin" <->
     flt_ge suhu (Float64.lit 0 10) = true /\ flt_lt suhu (Float64.lit 150 10) = true) /\
  (kategoriSuhu suhu = "Sejuk ✅" <->
     flt_ge suhu (Float64.lit 150 10) = true /\ flt_lt suhu (Float64.lit 250 10) = true) /\
  (kategoriSuhu suhu = "Hangat ✅" <->
     flt_ge suhu (Float64.lit 250 10) = true /\ flt_lt suhu (Float64.lit 300 10) = true) /\
  (kategoriSuhu suhu = "Panas" <->
     flt_ge suhu (Float64.lit 300 10) = true /\ flt_lt suhu (Float64.lit 400 10) = true) /\
  (kategoriSuhu suhu = "Sangat Panas ⚠️" <->
     flt_ge suhu (Float64.lit 400 10) = true \/ is_nan suhu = true) /\
  NoDup ["Beku ❄️"; "Dingin"; "Sejuk ✅"; "Hangat ✅"; "Panas"; "Sangat Panas ⚠️"].
Proof.
  destruct suhu_thresholds as ((O1 & O2 & O3 & O4) & (N1 & N2 & N3 & N4 & N5)).
  assert (ND : NoDup ["Beku ❄️"; "Dingin"; "Sejuk ✅"; "Hangat ✅"; "Panas";
                      "Sangat Panas ⚠️"]).
  { repeat constructor; simpl; intros H;
      repeat (destruct H as [H|H]; [labels_differ|]); exact H. }
  destruct (is_nan suhu) eqn:Hnan.
  - destruct suhu; try discriminate. clear Hnan O1 O2 O3 O4 N1 N2 N3 N4 N5.
    assert (K : kategoriSuhu S754_nan = "Sangat Panas ⚠️") by (vm_compute; reflexivity).
    rewrite K. clear K. unfold flt_lt, flt_ge, SFltb, SFleb.
    change (Float64.of_float S754_nan) with S754_nan.
    rewrite !SFcompare_nan_l, !SFcompare_nan_r.
    repeat split; intros; try exact ND; clear ND;
      try labels_differ; try (intuition discriminate); simpl; auto 10.
  - assert (Hd : is_nan (Float64.of_float suhu) = false)
      by (apply SFconv_not_nan; exact Hnan).
    unfold kategoriSuhu, flt_ge, flt_lt.
    set (d := Float64.of_float suhu) in *.
    rewrite (SFleb_negb_SFltb d _ Hd N1), (SFleb_negb_SFltb d _ Hd N2),
            (SFleb_negb_SFltb d _ Hd N3), (SFleb_negb_SFltb d _ Hd N4),
            (SFleb_negb_SFltb d _ Hd N5).
    pose proof (fun H => SFltb_leb_trans d _ _ H O1) as T1.
    pose proof (fun H => SFltb_leb_trans d _ _ H O2) as T2.
    pose proof (fun H => SFltb_leb_trans d _ _ H O3) as T3.
    pose proof (fun H => SFltb_leb_trans d _ _ H O4) as T4.
    clear O1 O2 O3 O4 N1 N2 N3 N4 N5 Hd.
    destruct (SFltb d (Float64.lit 0 10));
      destruct (SFltb d (Float64.lit 150 10));
      destruct (SFltb d (Float64.lit 250 10));
      destruct (SFltb d (Float64.lit 300 10));
      destruct (SFltb d (Float64.lit 400 10));
      try (specialize (T1 eq_refl); discriminate T1);
      try (specialize (T2 eq_refl); discriminate T2);
      try (specialize (T3 eq_refl); discriminate T3);
      try (specialize (T4 eq_refl); discriminate T4);
      clear T1 T2 T3 T4 Hnan; clearbody d; simpl;
      repeat split; intros; try exact ND; clear ND;
      try labels_differ; try reflexivity; try (intuition discriminate);
      simpl; auto 10.
Qed.

Lemma kategoriSuhu_bands_witness :
  flt_ge (Float32.of_int 25) (Float64.lit 250 10) = true /\
  flt_lt (Float32.of_int 25) (Float64.lit 300 10) = true /\
  kategoriSuhu (Float32.of_int 25) = "Hangat ✅".
Proof.
  assert (H : flt_ge (Float32.of_int 25) (Float64.lit 250 10) = true /\
              flt_lt (Float32.of_int 25) (Float64.lit 300 10) = true)
    by (split; vm_compute; reflexivity).
  destruct (kategoriSuhu_bands (Float32.of_int 25)) as (_ & _ & _ & B & _).
  split; [apply H | split; [apply H | apply (proj2 B H)]].
Defined.

Local Close Scope string_scope.

(* ================================================================== *)
(** * Padding of the console table *)
(* ================================================================== *)

Lemma string_append_assoc (a b c : string) :
  ((a ++ b) ++ c = a ++ (b ++ c))%string.
Proof. induction a as [|x a IH]; simpl; [reflexivity | rewrite IH; reflexivity]. Qed.

Lemma string_append_nil_r (a : string) : (a ++ "" = a)%string.
Proof. induction a as [|x a IH]; simpl; [reflexivity | rewrite IH; reflexivity]. Qed.

Lemma string_length_append (a b : string) :
  String.length (a ++ b) = (String.length a + String.length b)%nat.
Proof. induction a as [|x a IH]; simpl; [reflexivity | rewrite IH; reflexivity]. Qed.

Lemma spaces_length n : String.length (spaces n) = n.
Proof. induction n as [|n IH]; simpl; [reflexivity | rewrite IH; reflexivity]. Qed.

Lemma padRight_loop_spaces k : forall s, padRight_loop k s = (s ++ spaces k)%string.
Proof.
  induction k as [|k IH]; intros s; simpl.
  - symmetry. apply string_append_nil_r.
  - rewrite IH, string_append_assoc. reflexivity.
Qed.

Lemma padRight_facts (text : string) (totalLength : Z) :
  padRight text totalLength
  = (text ++ spaces (Z.to_nat (totalLength - Z.of_nat (String.length text))))%string /\
  Z.of_nat (String.length (padRight text totalLength))
  = Z.max (Z.of_nat (String.length text)) totalLength /\
  (totalLength <= Z.of_nat (String.length text) -> padRight text totalLength = text).
Proof.
  unfold padRight. rewrite padRight_loop_spaces. split; [reflexivity|]. split.
  - rewrite string_length_append, spaces_length. lia.
  - intros H. replace (Z.to_nat _) with 0%nat by lia.
    apply string_append_nil_r.
Qed.

(** X3: padRight appends spaces and nothing else, up to the requested
    length: the result is as long as the larger of the text and totalLength;
    a text already that long, or a zero or negative totalLength, comes back
    unchanged (nothing is ever cut). *)
Theorem padRight_pads (text : string) (totalLength : Z) :
  padRight text totalLength
  = (text ++ spaces (Z.to_nat (totalLength - Z.of_nat (String.length text))))%string /\
  Z.of_nat (String.length (padRight text totalLength))
  = Z.max (Z.of_nat (String.length text)) totalLength /\
  (totalLength <= Z.of_nat (String.length text) -> padRight text totalLength = text).
Proof. apply padRight_facts. Qed.

Lemma padRight_pads_witness :
  padRight "pH" 1 = "pH"%string.
Proof. apply (padRight_pads "pH" 1). simpl. lia. Defined.

Lemma room_exact width s :
  - 2^31 <= width - Z.of_nat (String.length s) < 2^31 ->
  room width s = width - Z.of_nat (String.length s).
Proof.
  intros H. unfold room, wrap_signed32, wrap_unsigned32.
  rewrite Z.add_mod_idemp_l by lia. rewrite Z.mod_small; lia.
Qed.

(** X4: a cell of the console table, [s + padRight("", width - s.length())],
    is exactly [width] bytes long when [s] fits and is [s] itself when it
    does not: the unsigned difference that underflows for a longer [s]
    reaches padRight as a negative int and adds no padding. *)
Theorem table_cell_width (width : Z) (s : string) :
  0 <= width < 2^31 -> Z.of_nat (String.length s) < 2^31 ->
  Z.of_nat (String.length (s ++ padRight "" (room width s)))
  = Z.max width (Z.of_nat (String.length s)) /\
  (width <= Z.of_nat (String.length s) -> (s ++ padRight "" (room width s))%string = s).
Proof.
  intros Hw Hs.
  rewrite room_exact by lia.
  destruct (padRight_facts "" (width - Z.of_nat (String.length s))) as (_ & Hlen & Hid).
  split.
  - rewrite string_length_append, Nat2Z.inj_add, Hlen. simpl String.length. lia.
  - intros H. rewrite Hid by (simpl String.length; lia). apply string_append_nil_r.
Qed.

Lemma table_cell_width_witness :
  String.length ("Asam" ++ padRight "" (room 30 "Asam")) = 30%nat.
Proof.
  apply Nat2Z.inj.
  rewrite (proj1 (table_cell_width 30 "Asam" ltac:(lia) ltac:(simpl; lia))).
  reflexivity.
Defined.

(* ================================================================== *)
(** * From raw code to physical value *)
(* ================================================================== *)

Lemma SFltb_trans x y z :
  SFltb x y = true -> SFltb y z = true -> SFltb x z = true.
Proof.
  intros Hxy Hyz. apply SFltb_leb_trans with y; [exact Hxy|].
  apply SFltb_SFleb, Hyz.
Qed.

(** X5: whatever integer the averaging returns, the acidity stored for it
    is in [0,14] and the turbidity in [0,1000]: adcKeVoltage never yields
    NaN, so the clamps always apply. *)
Theorem code_conversions_in_range (r : Z) :
  is_nan (adcKeVoltage r) = false /\
  in_range (Float64.lit 0 10) (Float64.lit 140 10) (konversiKePH (adcKeVoltage r)) = true /\
  in_range (Float64.lit 0 10) (Float64.lit 10000 10) (konversiKeNTU (adcKeVoltage r)) = true.
Proof.
  pose proof (adcKeVoltage_not_nan r) as Hv. split; [exact Hv|]. split.
  - unfold konversiKePH.
    apply clamp_in_range;
      [apply ph_linear_not_nan, Hv | vm_compute; reflexivity ..].
  - unfold konversiKeNTU.
    apply clamp_in_range;
      [apply ntu_linear_not_nan, Hv | vm_compute; reflexivity ..].
Qed.

Lemma conversions_step r :
  0 <= r < 4095 ->
  SFltb (adcKeVoltage r) (adcKeVoltage (r + 1))
  && SFltb (ph_of_code r) (ph_of_code (r + 1))
  && SFltb (ntu_of_code (r + 1)) (ntu_of_code r) = true.
Proof.
  apply (check_codes_spec
           (fun r => let v0 := adcKeVoltage r in
                     let v1 := adcKeVoltage (r + 1) in
                     SFltb v0 v1
                     && SFltb (konversiKePH v0) (konversiKePH v1)
                     && SFltb (konversiKeNTU v1) (konversiKeNTU v0)) 4095).
  vm_compute. reflexivity.
Qed.

Lemma conversions_strict_nat (d : nat) r :
  0 <= r -> r + Z.of_nat (S d) <= 4095 ->
  SFltb (adcKeVoltage r) (adcKeVoltage (r + Z.of_nat (S d))) = true /\
  SFltb (ph_of_code r) (ph_of_code (r + Z.of_nat (S d))) = true /\
  SFltb (ntu_of_code (r + Z.of_nat (S d))) (ntu_of_code r) = true.
Proof.
  induction d as [|d IH]; intros H0 H1.
  - pose proof (conversions_step r ltac:(lia)) as H.
    rewrite !andb_true_iff in H. change (Z.of_nat 1) with 1. tauto.
  - destruct (IH H0 ltac:(lia)) as (A & B & C).
    pose proof (conversions_step (r + Z.of_nat (S d)) ltac:(lia)) as H.
    rewrite !andb_true_iff in H. destruct H as ((A' & B') & C').
    replace (r + Z.of_nat (S (S d))) with (r + Z.of_nat (S d) + 1) by lia.
    repeat split; eauto using SFltb_trans.
Qed.

(** X6: over the codes 0 to 4095 the voltage and the acidity strictly
    increase with the code and the turbidity strictly decreases (high
    voltage is clear water), so distinct codes never share a voltage or a
    value; the scale is covered end to end: code 0 gives pH 0 and 1000 NTU,
    code 4095 gives pH 14 and 0 NTU. *)
Theorem code_conversions_strict (r1 r2 : Z) :
  0 <= r1 -> r1 < r2 -> r2 <= 4095 ->
  SFltb (adcKeVoltage r1) (adcKeVoltage r2) = true /\
  SFltb (konversiKePH (adcKeVoltage r1)) (konversiKePH (adcKeVoltage r2)) = true /\
  SFltb (konversiKeNTU (adcKeVoltage r2)) (konversiKeNTU (adcKeVoltage r1)) = true /\
  konversiKePH (adcKeVoltage 0) = Float32.of_int 0 /\
  konversiKeNTU (adcKeVoltage 0) = Float32.of_int 1000 /\
  konversiKePH (adcKeVoltage 4095) = Float32.of_int 14 /\
  konversiKeNTU (adcKeVoltage 4095) = Float32.of_int 0.
Proof.
  intros H0 H12 H2.
  replace r2 with (r1 + Z.of_nat (S (Z.to_nat (r2 - r1 - 1)))) by lia.
  destruct (conversions_strict_nat (Z.to_nat (r2 - r1 - 1)) r1 H0 ltac:(lia))
    as (A & B & C).
  repeat split; try assumption; vm_compute; reflexivity.
Qed.

Lemma code_conversions_strict_witness :
  SFltb (konversiKePH (adcKeVoltage 2047)) (konversiKePH (adcKeVoltage 2048)) = true.
Proof.
  apply (code_conversions_strict 2047 2048); lia.
Defined.

(* ================================================================== *)
(** * The averaging reader, whatever it reads *)
(* ================================================================== *)

Lemma sampling_loop_world n : forall pin total w,
  exec (sampling_loop n pin total) w = upd_board (after_sampling pin n) w.
Proof.
  induction n as [|n IH]; intros pin total w.
  - cbn [sampling_loop]. rewrite exec_ret, after_sampling_O. reflexivity.
  - cbn [sampling_loop]. rewrite !exec_bind. cbv beta. rewrite IH.
    apply after_sampling_S.
Qed.

Lemma bacaADCRataRata_world pin w :
  exec (bacaADCRataRata pin) w = upd_board (after_sampling pin 10) w.
Proof.
  unfold bacaADCRataRata. rewrite exec_bind, exec_ret. apply sampling_loop_world.
Qed.

(** X7: whatever values the ADC returns (even ones that would make the
    accumulator wrap), one call of bacaADCRataRata converts the given pin
    exactly ten times and no other pin, waits 20 ms in all, and changes
    nothing else: not the readings, the timers, the probe, the network or
    the serial output. *)
Theorem bacaADCRataRata_footprint (pin : Z) (w : World) :
  let w' := exec (bacaADCRataRata pin) w in
  adc_log (board w') = adc_log (board w) ++ repeat pin 10 /\
  clock (board w') = clock (board w) + 20 /\
  beyond_adc w' = beyond_adc w.
Proof.
  intros w'. subst w'. rewrite bacaADCRataRata_world. repeat split.
Qed.

(** X8: on a steady signal the average is the signal: if the ten
    conversions all return the same 16-bit value, that value is the
    result. *)
Theorem bacaADCRataRata_steady (pin : Z) (w : World) (v : Z) :
  0 <= v < 2^16 ->
  upcoming w pin 10 = repeat v 10 ->
  eval (bacaADCRataRata pin) w = v.
Proof.
  intros Hv Hs. unfold eval.
  rewrite bacaADCRataRata_exact; rewrite Hs.
  - cbn [fst repeat sum fold_right]. unfold JUMLAH_SAMPLING.
    replace (v + (v + (v + (v + (v + (v + (v + (v + (v + (v + 0))))))))))
      with (v * 10) by lia.
    apply Z.div_mul. lia.
  - repeat constructor; lia.
  - cbn [repeat sum fold_right]. unfold LONG_MAX. lia.
Qed.

Lemma bacaADCRataRata_steady_witness :
  eval (bacaADCRataRata TURBIDITY_SENSOR_PIN) wokwi_world = 1000.
Proof.
  apply (bacaADCRataRata_steady TURBIDITY_SENSOR_PIN wokwi_world 1000).
  - lia.
  - vm_compute. reflexivity.
Defined.

(* ================================================================== *)
(** * One iteration of the loop *)
(* ================================================================== *)

Lemma transforms_bind {A B C} (f : World -> C) (g1 g2 : C -> C)
      (m : M A) (k : A -> M B) :
  transforms f g1 m -> (forall a, transforms f g2 (k a)) ->
  transforms f (fun x => g2 (g1 x)) (bind m k).
Proof.
  intros Hm Hk w. rewrite exec_bind, Hk, Hm. reflexivity.
Qed.

Lemma transforms_preserves {A C} (f : World -> C) (m : M A) :
  preserves f m -> transforms f (fun x => x) m.
Proof. intros H w. apply H. Qed.

Lemma transforms_if {A C} (f : World -> C) (g : C -> C) (c : bool) (a b : M A) :
  transforms f g a -> transforms f g b -> transforms f g (if c then a else b).
Proof. destruct c; auto. Qed.

Lemma wrap_unsigned32_elapsed t0 d :
  0 <= d < 2^32 ->
  wrap_unsigned32 (wrap_unsigned32 (t0 + d) - wrap_unsigned32 t0) = d.
Proof.
  intros H. unfold wrap_unsigned32.
  rewrite <- Zminus_mod. replace (t0 + d - t0) with d by lia.
  apply Z.mod_small. exact H.
Qed.

Lemma geb_false_lt a b : a < b -> (a >=? b) = false.
Proof. intros H. rewrite Z.geb_leb. apply Z.leb_gt. exact H. Qed.

Lemma geb_true_le a b : b <= a -> (a >=? b) = true.
Proof. intros H. rewrite Z.geb_leb. apply Z.leb_le. exact H. Qed.

Section Ticks.
Context {core : ArduinoCore}.

Ltac keeps_step :=
  lazymatch goal with
  | |- preserves _ (bind _ _) => apply preserves_bind; [|intros ?]
  | |- preserves _ (if ?c then _ else _) => destruct c
  | |- preserves _ (bacaADCRataRata _) =>
      intros ?; rewrite bacaADCRataRata_world; reflexivity
  | |- preserves _ tampilkanDataSerial =>
      intros ?; rewrite tampilkanDataSerial_writes; reflexivity
  | |- preserves _ kirimDataKeServer => unfold kirimDataKeServer
  | |- preserves _ _ => intros ?; reflexivity
  end.
Ltac keeps := repeat keeps_step.

Ltac run_tick :=
  repeat first
    [ rewrite exec_bind; cbv beta
    | rewrite exec_modify
    | rewrite exec_gets
    | rewrite eval_gets
    | rewrite exec_ret
    | rewrite exec_Serial_println
    | rewrite exec_Serial_print
    | rewrite tampilkanDataSerial_writes
    | rewrite (proj1 (exec_bacaSuhuDS18B20 _))
    | rewrite (proj2 (exec_bacaSuhuDS18B20 _)) ].

(** ** Frames of the two ticks *)

Lemma kirimDataKeServer_timers :
  preserves (fun w => (lastSensorRead w, lastDataSend w, clock (board w),
                       adc_log (board w), probe_requests (board w)))
            kirimDataKeServer.
Proof. keeps. Qed.

Lemma sending_tick_lastSensorRead now :
  preserves (fun w => (lastSensorRead w, clock (board w), adc_log (board w),
                       probe_requests (board w)))
            (sending_tick now).
Proof. unfold sending_tick. keeps. Qed.

Lemma sending_tick_lastDataSend now w :
  lastDataSend (exec (sending_tick now) w)
  = if wrap_unsigned32 (now - lastDataSend w) >=? DATA_SEND_INTERVAL
    then now else lastDataSend w.
Proof.
  unfold sending_tick. rewrite exec_bind, exec_gets, eval_gets.
  destruct (_ >=? DATA_SEND_INTERVAL); [|reflexivity].
  rewrite exec_bind, exec_modify.
  pose proof (kirimDataKeServer_timers (set_lastDataSend now w)) as H.
  cbv beta in H. injection H as _ H _ _ _. exact H.
Qed.

Lemma sampling_tick_idle now w :
  (wrap_unsigned32 (now - lastSensorRead w) >=? SENSOR_READ_INTERVAL) = false ->
  exec (sampling_tick now) w = w.
Proof.
  intros H. unfold sampling_tick. rewrite exec_bind, exec_gets, eval_gets, H.
  reflexivity.
Qed.

Lemma sending_tick_idle now w :
  (wrap_unsigned32 (now - lastDataSend w) >=? DATA_SEND_INTERVAL) = false ->
  exec (sending_tick now) w = w.
Proof.
  intros H. unfold sending_tick. rewrite exec_bind, exec_gets, eval_gets, H.
  reflexivity.
Qed.

Ltac footprint_step :=
  lazymatch goal with
  | |- transforms _ _ (bind _ _) => eapply transforms_bind; [|intros ?]
  | |- transforms _ _ (if _ then _ else _) => apply transforms_if
  | |- transforms footprint _ (bacaADCRataRata ?pin) =>
      exact (fun w => f_equal footprint (bacaADCRataRata_world pin w)
             : footprint (exec (bacaADCRataRata pin) w)
               = (fun x => let '(l, c, p, t) := x in (l ++ repeat pin 10, c + 20, p, t))
                   (footprint w))
  | |- transforms footprint _ bacaSuhuDS18B20 =>
      exact (fun w => eq_refl
             : footprint (exec bacaSuhuDS18B20 w)
               = (fun x => let '(l, c, p, t) := x in (l, c, S p, t)) (footprint w))
  | |- transforms footprint _ (modify (set_lastSensorRead ?now)) =>
      exact (fun w => eq_refl
             : footprint (exec (modify (set_lastSensorRead now)) w)
               = (fun x => let '(l, c, p, t) := x in (l, c, p, now)) (footprint w))
  | |- transforms _ _ tampilkanDataSerial =>
      apply transforms_preserves; intros ?;
      rewrite tampilkanDataSerial_writes; reflexivity
  | |- transforms _ _ _ => apply transforms_preserves; intros ?; reflexivity
  end.

Lemma sampling_tick_footprint now w :
  footprint (exec (sampling_tick now) w)
  = if wrap_unsigned32 (now - lastSensorRead w) >=? SENSOR_READ_INTERVAL
    then (adc_log (board w) ++ repeat PH_SENSOR_PIN 10 ++ repeat TURBIDITY_SENSOR_PIN 10,
          clock (board w) + 40, S (probe_requests (board w)), now)
    else footprint w.
Proof.
  unfold sampling_tick. rewrite exec_bind, exec_gets, eval_gets.
  destruct (_ >=? SENSOR_READ_INTERVAL); [|reflexivity].
  match goal with
  | |- footprint (exec ?m w) = _ =>
      etransitivity;
      [ refine ((_ : transforms footprint _ m) w); repeat footprint_step |]
  end.
  unfold footprint. cbv beta iota. rewrite <- app_assoc. f_equal. f_equal. f_equal. lia.
Qed.

(** ** Timers *)

(** X9: an iteration in which neither period has elapsed does nothing at
    all: no conversion, no output, no request, no variable touched. *)
Theorem loop_idle (w : World) :
  let now := wrap_unsigned32 (clock (board w)) in
  wrap_unsigned32 (now - lastSensorRead w) < SENSOR_READ_INTERVAL ->
  wrap_unsigned32 (now - lastDataSend w) < DATA_SEND_INTERVAL ->
  exec loop w = w.
Proof.
  intros now Hs Hd. rewrite loop_split. fold now.
  rewrite sampling_tick_idle by (apply geb_false_lt; exact Hs).
  apply sending_tick_idle, geb_false_lt, Hd.
Qed.

(** X10: the two timers run on unsigned 32-bit differences and so survive
    the roll-over of millis(): if the sampler last ran at time ts and the
    reporter at time tr (stored modulo 2^32), and ds and dr milliseconds
    (less than 2^32) have passed since, the iteration sets lastSensorRead to
    the current millis() exactly when ds >= 1000 and lastDataSend exactly
    when dr >= 5000, and leaves them alone otherwise. *)
Theorem loop_timers (w : World) (ts ds tr dr : Z) :
  0 <= ds < 2^32 -> 0 <= dr < 2^32 ->
  lastSensorRead w = wrap_unsigned32 ts -> clock (board w) = ts + ds ->
  lastDataSend w = wrap_unsigned32 tr -> clock (board w) = tr + dr ->
  let now := wrap_unsigned32 (clock (board w)) in
  lastSensorRead (exec loop w)
  = (if ds >=? SENSOR_READ_INTERVAL then now else lastSensorRead w) /\
  lastDataSend (exec loop w)
  = (if dr >=? DATA_SEND_INTERVAL then now else lastDataSend w).
Proof.
  intros Hds Hdr Hs Hcs Hr Hcr now. rewrite loop_split. fold now.
  pose proof (sampling_tick_footprint now w) as F.
  pose proof (sampling_tick_network now w) as N.
  set (ws := exec (sampling_tick now) w) in *.
  assert (Es : wrap_unsigned32 (now - lastSensorRead w) = ds).
  { unfold now. rewrite Hs, Hcs. apply wrap_unsigned32_elapsed, Hds. }
  assert (Er : wrap_unsigned32 (now - lastDataSend w) = dr).
  { unfold now. rewrite Hr, Hcr at 1. apply wrap_unsigned32_elapsed, Hdr. }
  rewrite Es in F. split.
  - pose proof (sending_tick_lastSensorRead now ws) as K. cbv beta in K.
    injection K as K _ _ _. rewrite K.
    unfold footprint in F. destruct (ds >=? SENSOR_READ_INTERVAL);
      injection F as _ _ _ F; exact F.
  - rewrite sending_tick_lastDataSend.
    unfold network in N. injection N as N _ _ _ _. rewrite N, Er. reflexivity.
Qed.

(** ** The sampler *)

(** X11: a sampling tick that is due converts the pH pin ten times, then
    the turbidity pin ten times, asks the probe for one temperature, takes
    40 ms of delays and stamps lastSensorRead; it polls no WiFi status,
    sends no request and leaves lastDataSend alone. *)
Theorem sampling_tick_effects (now : Z) (w : World) :
  wrap_unsigned32 (now - lastSensorRead w) >= SENSOR_READ_INTERVAL ->
  let ws := exec (sampling_tick now) w in
  adc_log (board ws)
  = adc_log (board w) ++ repeat PH_SENSOR_PIN 10 ++ repeat TURBIDITY_SENSOR_PIN 10 /\
  probe_requests (board ws) = S (probe_requests (board w)) /\
  clock (board ws) = clock (board w) + 40 /\
  lastSensorRead ws = now /\
  network ws = network w.
Proof.
  intros Hdue ws. subst ws.
  pose proof (sampling_tick_footprint now w) as F.
  rewrite geb_true_le in F by lia. unfold footprint in F.
  injection F as F1 F2 F3 F4.
  repeat split; try assumption. apply sampling_tick_network.
Qed.

Lemma hoare_keep {A B} (I : Readings -> Prop) (R : B -> World -> Prop)
      (m : M A) (k : A -> M B) :
  preserves readings m ->
  (forall a, hoare (fun w => I (readings w)) (k a) R) ->
  hoare (fun w => I (readings w)) (bind m k) R.
Proof.
  intros Hm Hk. apply hoare_bind with (Q := fun _ w => I (readings w)); [|exact Hk].
  intros w Hw. rewrite Hm. exact Hw.
Qed.

Lemma hoare_update {B} (I I' : Readings -> Prop) (R : B -> World -> Prop)
      (g : Readings -> Readings) (k : unit -> M B) :
  (forall r, I r -> I' (g r)) ->
  (forall a, hoare (fun w => I' (readings w)) (k a) R) ->
  hoare (fun w => I (readings w)) (bind (modify (upd_readings g)) k) R.
Proof.
  intros Hg Hk. apply hoare_bind with (Q := fun _ w => I' (readings w)); [|exact Hk].
  intros w Hw. rewrite exec_modify. apply Hg, Hw.
Qed.

Lemma hoare_kept {A} (I : Readings -> Prop) (m : M A) :
  preserves readings m ->
  hoare (fun w => I (readings w)) m (fun _ w => I (readings w)).
Proof. intros Hm w Hw. rewrite Hm. exact Hw. Qed.

Lemma sampling_tick_consistent now w :
  (wrap_unsigned32 (now - lastSensorRead w) >=? SENSOR_READ_INTERVAL) = true ->
  consistent (readings (exec (sampling_tick now) w)).
Proof.
  intros Hdue. unfold sampling_tick. rewrite exec_bind, exec_gets, eval_gets, Hdue.
  pose (I0 := fun _ : Readings => True).
  pose (I1 := fun r => teganganPH r = adcKeVoltage (rawPH r)).
  pose (I2 := fun r => I1 r /\ nilaiPH r = konversiKePH (teganganPH r)).
  pose (I3 := fun r => I2 r /\ teganganTurbidity r = adcKeVoltage (rawTurbidity r)).
  match goal with
  | |- consistent (readings (exec ?m w)) =>
      refine ((_ : hoare (fun w => I0 (readings w)) m
                     (fun _ ws => consistent (readings ws))) w I)
  end.
  apply (hoare_keep I0); [keeps | intros _].
  apply (hoare_keep I0); [keeps | intros raw].
  apply (hoare_update I0 I0); [auto | intros _].
  apply (hoare_update I0 I1); [intros; reflexivity | intros _].
  apply (hoare_update I1 I2); [intros r H; split; [exact H | reflexivity] | intros _].
  apply (hoare_keep I2); [keeps | intros raw'].
  apply (hoare_update I2 I2); [intros r H; exact H | intros _].
  apply (hoare_update I2 I3); [intros r H; split; [exact H | reflexivity] | intros _].
  apply (hoare_update I3 consistent);
    [intros r [[H1 H2] H3]; repeat split; assumption | intros _].
  apply (hoare_keep consistent); [keeps | intros suhu].
  apply (hoare_update consistent consistent); [intros r H; exact H | intros _].
  apply (hoare_keep consistent); [keeps | intros r].
  apply hoare_bind with (Q := fun _ w => consistent (readings w)).
  - destruct (SFeqb _ _).
    + apply (hoare_keep consistent); [keeps | intros _].
      intros w' Hw'. rewrite exec_modify. exact Hw'.
    + apply (hoare_kept consistent). keeps.
  - intros _. apply (hoare_kept consistent). keeps.
Qed.

Lemma consistent_on_scale r : consistent r -> on_scale r = true.
Proof.
  intros (H1 & H2 & H3 & H4). unfold on_scale. rewrite H2, H1, H4, H3.
  pose proof (adcKeVoltage_not_nan (rawPH r)) as Hp.
  pose proof (adcKeVoltage_not_nan (rawTurbidity r)) as Ht.
  apply andb_true_iff. split.
  - unfold konversiKePH.
    apply clamp_in_range;
      [apply ph_linear_not_nan, Hp | vm_compute; reflexivity ..].
  - unfold konversiKeNTU.
    apply clamp_in_range;
      [apply ntu_linear_not_nan, Ht | vm_compute; reflexivity ..].
Qed.

(** X12: after a sampling tick that was due, the stored voltages are the
    conversions of the stored raw codes and the stored values the
    conversions of the stored voltages, for both channels, whatever the ADC
    and the probe delivered; the acidity is in [0,14] and the turbidity in
    [0,1000]. *)
Theorem sampled_readings_consistent (now : Z) (w : World) :
  wrap_unsigned32 (now - lastSensorRead w) >= SENSOR_READ_INTERVAL ->
  let r := readings (exec (sampling_tick now) w) in
  teganganPH r = adcKeVoltage (rawPH r) /\
  nilaiPH r = konversiKePH (teganganPH r) /\
  teganganTurbidity r = adcKeVoltage (rawTurbidity r) /\
  nilaiTurbidity r = konversiKeNTU (teganganTurbidity r) /\
  in_range (Float64.lit 0 10) (Float64.lit 140 10) (nilaiPH r) = true /\
  in_range (Float64.lit 0 10) (Float64.lit 10000 10) (nilaiTurbidity r) = true.
Proof.
  intros Hdue r.
  assert (E : (wrap_unsigned32 (now - lastSensorRead w) >=? SENSOR_READ_INTERVAL) = true)
    by (apply geb_true_le; lia).
  pose proof (sampling_tick_consistent now w E) as C.
  fold r in C. pose proof (consistent_on_scale r C) as S.
  unfold on_scale in S. apply andb_true_iff in S.
  destruct C as (C1 & C2 & C3 & C4). tauto.
Qed.

(** X13: the scales are an invariant of the loop: if the stored acidity
    is in [0,14] and the stored turbidity in [0,1000] before an iteration,
    as they are at power-up, they are after it, whatever the devices do. *)
Theorem loop_keeps_scales (w : World) :
  on_scale (readings w) = true -> on_scale (readings (exec loop w)) = true.
Proof.
  intros H. rewrite loop_split, sending_tick_readings.
  destruct (wrap_unsigned32 (wrap_unsigned32 (clock (board w)) - lastSensorRead w)
            >=? SENSOR_READ_INTERVAL) eqn:E.
  - apply consistent_on_scale, sampling_tick_consistent, E.
  - rewrite sampling_tick_idle by exact E. exact H.
Qed.

(** X14: in a due sampling tick whose probe read does not compare equal to
    DEVICE_DISCONNECTED_C, the temperature read is stored as it is and no
    warning is written: the tick's only output is the console table. *)
Theorem connected_probe_stored (now : Z) (w : World) :
  wrap_unsigned32 (now - lastSensorRead w) >= SENSOR_READ_INTERVAL ->
  SFeqb (probe (board w) (S (probe_requests (board w))) 0)
        (Float32.of_int DEVICE_DISCONNECTED_C) = false ->
  let ws := exec (sampling_tick now) w in
  nilaiSuhu (readings ws) = probe (board w) (S (probe_requests (board w))) 0 /\
  serial (board ws) = serial (board w) ++ table (readings ws).
Proof.
  intros Hdue Hconn ws. subst ws.
  unfold sampling_tick.
  rewrite exec_bind, exec_gets, eval_gets, geb_true_le by lia.
  match goal with
  | |- context [exec ?m w] =>
      refine ((_ : hoare (fun w0 => peripherals w0 = peripherals w) m
                     (fun _ ws =>
                        nilaiSuhu (readings ws)
                        = probe (board w) (S (probe_requests (board w))) 0 /\
                        serial (board ws) = serial (board w) ++ table (readings ws)))
                w eq_refl)
  end.
  repeat (apply hoare_preserves; [solve [keeps] | intros ?]).
  intros w0 Hw. unfold peripherals, network in Hw.
  injection Hw as _ _ _ _ _ Hprobe Hreq Hser.
  run_tick.
  cbn [readings upd_readings set_nilaiSuhu nilaiSuhu board upd_board log_probe
       probe probe_requests].
  rewrite Hprobe, Hreq, Hconn.
  run_tick.
  cbn [readings upd_readings set_nilaiSuhu nilaiSuhu board upd_board log_probe
       log_serial write_all serial].
  rewrite Hser. split; reflexivity.
Qed.

(** ** The reporter *)

Ltac run_kirim :=
  cbv [kirimDataKeServer exec eval bind WiFi_status gets ret
       Serial_println Serial_print modify http_GET http_getString snd fst].

(** X15: with WiFi not connected the reporter builds no request: its whole
    effect is the one status poll and one line on the console. *)
Theorem reporter_offline (w : World) :
  wifi (board w) (wifi_polls (board w)) <> WL_CONNECTED ->
  exec kirimDataKeServer w
  = upd_board (log_serial ("❌ WiFi terputus! Tidak bisa mengirim data." ++ CRLF))
              (upd_board log_wifi w) /\
  http_log (board (exec kirimDataKeServer w)) = http_log (board w).
Proof.
  intros H. apply Z.eqb_neq in H.
  assert (E : exec kirimDataKeServer w
              = upd_board (log_serial ("❌ WiFi terputus! Tidak bisa mengirim data." ++ CRLF))
                          (upd_board log_wifi w)).
  { run_kirim. rewrite H. reflexivity. }
  split; [exact E | rewrite E; reflexivity].
Qed.

(** X16: with WiFi connected the reporter sends exactly one GET, whatever
    the answer: it writes a blank line, the announcement and the URL, then
    one line for the outcome (the body for HTTP_CODE_OK, the status code for
    any other positive code, the client's error text for a code that is not
    positive), and never sends again. Readings, timers and clock are as
    before. *)
Theorem reporter_online (w : World) :
  wifi (board w) (wifi_polls (board w)) = WL_CONNECTED ->
  let n := List.length (http_log (board w)) in
  let code := fst (http (board w) n) in
  let body := snd (http (board w) n) in
  let outcome :=
    if code >? 0 then
      if code =? HTTP_CODE_OK then (("   ✅ Berhasil! Response: " ++ body) ++ CRLF)%string
      else ("   ⚠️ HTTP Code: " ++ String_of_int code ++ LF)%string
    else ("   ❌ Gagal! Error: " ++ errorToString code ++ LF)%string in
  let w' := exec kirimDataKeServer w in
  http_log (board w') = http_log (board w) ++ [GET (serverPath (readings w))] /\
  serial (board w')
  = serial (board w)
    ++ [CRLF; ("📡 Mengirim data ke server..." ++ CRLF)%string;
        (("   URL: " ++ serverPath (readings w)) ++ CRLF)%string; outcome] /\
  readings w' = readings w /\
  (lastSensorRead w', lastDataSend w', clock (board w'))
  = (lastSensorRead w, lastDataSend w, clock (board w)).
Proof.
  intros H n code body outcome w'. subst w'.
  apply Z.eqb_eq in H. split; [|split; [|split]].
  - rewrite kirimDataKeServer_http_log, H. reflexivity.
  - subst outcome code body n. run_kirim. rewrite H.
    cbn [upd_board log_wifi log_http log_serial board http http_log serial
         readings].
    destruct (_ >? 0).
    + destruct (_ =? HTTP_CODE_OK).
      * cbn [upd_board log_wifi log_http log_serial board http http_log serial
             readings].
        rewrite length_app, Nat.add_1_r. cbn [Nat.pred List.length].
        rewrite <- !app_assoc. reflexivity.
      * cbn [upd_board log_wifi log_http log_serial board http http_log serial
             readings].
        rewrite <- !app_assoc. reflexivity.
    + cbn [upd_board log_wifi log_http log_serial board http http_log serial
           readings].
      rewrite <- !app_assoc. reflexivity.
  - apply kirimDataKeServer_readings.
  - pose proof (kirimDataKeServer_timers w) as K. cbv beta in K.
    injection K as K1 K2 K3 _ _. rewrite K1, K2, K3. reflexivity.
Qed.

(** ** The console table *)

(** X17: tampilkanDataSerial only writes: it appends its 39 chunks to the
    serial output, the same number whatever the readings, and changes
    nothing else in the world. *)
Theorem tampilkanDataSerial_only_writes (w : World) :
  beyond_serial (exec tampilkanDataSerial w) = beyond_serial w /\
  serial (board (exec tampilkanDataSerial w))
  = serial (board w) ++ table (readings w) /\
  List.length (table (readings w)) = 39%nat.
Proof.
  rewrite tampilkanDataSerial_writes. repeat split.
Qed.

End Ticks.

(* ================================================================== *)
(** * Start-up *)
(* ================================================================== *)

Section StartupTheorems.
Context {core : ArduinoCore} {startup : ArduinoStartup}.

Lemma failed_polls_le f n : forall start, (failed_polls f start n <= n)%nat.
Proof.
  induction n as [|n IH]; intros start; cbn [failed_polls]; [lia|].
  destruct (_ =? WL_CONNECTED); [lia|]. specialize (IH (S start)). lia.
Qed.

Lemma after_waiting_O w : upd_board (after_waiting 0) w = upd_board log_wifi w.
Proof.
  destruct w as [r t1 t2 [c a al p pr wf wp h hl s]].
  unfold upd_board, after_waiting, log_wifi.
  cbn [board readings lastSensorRead lastDataSend clock adc adc_log probe
       probe_requests wifi wifi_polls http http_log serial repeat].
  rewrite app_nil_r. do 2 f_equal; lia.
Qed.

Lemma after_waiting_S k w :
  upd_board (after_waiting k)
            (upd_board (log_serial ".") (upd_board (tick 500) (upd_board log_wifi w)))
  = upd_board (after_waiting (S k)) w.
Proof.
  destruct w as [r t1 t2 [c a al p pr wf wp h hl s]].
  unfold upd_board, after_waiting, log_wifi, log_serial, tick.
  cbn [board readings lastSensorRead lastDataSend clock adc adc_log probe
       probe_requests wifi wifi_polls http http_log serial repeat].
  rewrite <- app_assoc. do 2 f_equal; lia.
Qed.

(** The wait for WiFi, in closed form. *)
Lemma wifi_wait_world n : forall w,
  exec (wifi_wait n) w
  = upd_board (after_waiting
                 (failed_polls (wifi (board w)) (wifi_polls (board w)) n)) w.
Proof.
  induction n as [|n IH]; intros w.
  - cbn [wifi_wait failed_polls]. rewrite exec_bind, exec_ret.
    symmetry. apply after_waiting_O.
  - cbn [wifi_wait failed_polls]. rewrite exec_bind. cbv beta.
    change (eval WiFi_status w) with (wifi (board w) (wifi_polls (board w))).
    change (exec WiFi_status w) with (upd_board log_wifi w).
    destruct (_ =? WL_CONNECTED); cbn [negb].
    + rewrite exec_ret. symmetry. apply after_waiting_O.
    + rewrite !exec_bind. cbv beta. rewrite IH.
      change (exec (delay 500) (upd_board log_wifi w))
        with (upd_board (tick 500) (upd_board log_wifi w)).
      rewrite exec_Serial_print.
      apply after_waiting_S.
Qed.

Ltac startup_step :=
  lazymatch goal with
  | |- transforms _ _ (bind _ _) => eapply transforms_bind; [|intros ?]
  | |- transforms _ _ (if _ then _ else _) => apply transforms_if
  | |- transforms startup_view _ (wifi_wait ?n) =>
      exact (fun w => f_equal startup_view (wifi_wait_world n w)
             : startup_view (exec (wifi_wait n) w)
               = (fun x => let '(c, p, f) := x in
                           (c + 500 * Z.of_nat (failed_polls f p n),
                            (p + failed_polls f p n + 1)%nat, f))
                   (startup_view w))
  | |- transforms startup_view _ WiFi_status =>
      exact (fun w => eq_refl
             : startup_view (exec WiFi_status w)
               = (fun x => let '(c, p, f) := x in (c, S p, f)) (startup_view w))
  | |- transforms startup_view _ (delay ?ms) =>
      exact (fun w => eq_refl
             : startup_view (exec (delay ms) w)
               = (fun x => let '(c, p, f) := x in (c + ms, p, f)) (startup_view w))
  | |- transforms _ _ _ => apply transforms_preserves; intros ?; reflexivity
  end.

Lemma setup_view w :
  startup_view (exec setup w)
  = let k := failed_polls (wifi (board w)) (wifi_polls (board w)) 20 in
    (clock (board w) + 1000 + 500 * Z.of_nat k,
     (wifi_polls (board w) + k + 2)%nat, wifi (board w)).
Proof.
  etransitivity;
    [ refine ((_ : transforms startup_view _ setup) w);
      unfold setup; repeat startup_step |].
  unfold startup_view. cbv beta iota zeta. f_equal. f_equal. lia.
Qed.

Lemma setup_frame : preserves beyond_startup setup.
Proof.
  unfold setup.
  repeat lazymatch goal with
  | |- preserves _ (bind _ _) => apply preserves_bind; [|intros ?]
  | |- preserves _ (if ?c then _ else _) => destruct c
  | |- preserves _ (wifi_wait _) => intros ?; rewrite wifi_wait_world; reflexivity
  | |- preserves _ _ => intros ?; reflexivity
  end.
Qed.

(** X18: setup always returns: it waits for WiFi at most 20 times half a
    second, so it takes between 1 and 11 seconds of delays and polls the
    status between 2 and 22 times (once more than it waited, and once after
    the wait); with WiFi up at the first poll it does not wait at all. It makes no ADC conversion, no probe request and no HTTP
    request, and leaves the readings and both timers as they were. *)
Theorem setup_bounded (w : World) :
  let k := failed_polls (wifi (board w)) (wifi_polls (board w)) 20 in
  let w' := exec setup w in
  (k <= 20)%nat /\
  clock (board w') = clock (board w) + 1000 + 500 * Z.of_nat k /\
  wifi_polls (board w') = (wifi_polls (board w) + k + 2)%nat /\
  beyond_startup w' = beyond_startup w /\
  (wifi (board w) (wifi_polls (board w)) = WL_CONNECTED -> k = 0%nat).
Proof.
  intros k w'. subst w'.
  pose proof (setup_view w) as V. cbv zeta in V. fold k in V.
  unfold startup_view in V. injection V as V1 V2 _.
  repeat split; try assumption.
  - apply failed_polls_le.
  - apply setup_frame.
  - intros H. subst k. cbn [failed_polls]. rewrite H, Z.eqb_refl. reflexivity.
Qed.

End StartupTheorems.

(* ================================================================== *)
(** * The theorems above on the simulated board *)
(* ================================================================== *)

Lemma loop_idle_witness :
  exec (loop (core := wokwi_core)) (wokwi_at 500 0 0) = wokwi_at 500 0 0.
Proof.
  apply (loop_idle (core := wokwi_core) (wokwi_at 500 0 0));
    vm_compute; reflexivity.
Defined.

Lemma loop_timers_witness :
  let w := wokwi_at (2^32 + 500) (2^32 - 500) (2^32 - 500) in
  lastSensorRead (exec (loop (core := wokwi_core)) w) = 500 /\
  lastDataSend (exec (loop (core := wokwi_core)) w) = 2^32 - 500.
Proof.
  intros w.
  apply (loop_timers (core := wokwi_core) w (2^32 - 500) 1000 (2^32 - 500) 1000);
    try lia; reflexivity.
Defined.

Lemma sampling_tick_effects_witness :
  probe_requests (board (exec (sampling_tick (core := wokwi_core) 6000) wokwi_world))
  = 1%nat.
Proof.
  apply (sampling_tick_effects (core := wokwi_core) 6000 wokwi_world).
  vm_compute. discriminate.
Defined.

Lemma sampled_readings_consistent_witness :
  let r := readings (exec (sampling_tick (core := wokwi_core) 6000) wokwi_world) in
  nilaiPH r = konversiKePH (teganganPH r).
Proof.
  intros r.
  apply (sampled_readings_consistent (core := wokwi_core) 6000 wokwi_world).
  vm_compute. discriminate.
Defined.

Lemma loop_keeps_scales_witness :
  on_scale (readings wokwi_world) = true /\
  on_scale (readings (exec (loop (core := wokwi_core)) wokwi_world)) = true.
Proof.
  assert (H : on_scale (readings wokwi_world) = true) by (vm_compute; reflexivity).
  split; [exact H | apply (loop_keeps_scales (core := wokwi_core) wokwi_world H)].
Defined.

Lemma connected_probe_stored_witness :
  nilaiSuhu (readings (exec (sampling_tick (core := wokwi_core) 6000) wokwi_world))
  = Float32.of_int 25.
Proof.
  apply (connected_probe_stored (core := wokwi_core) 6000 wokwi_world).
  - vm_compute. discriminate.
  - vm_compute. reflexivity.
Defined.

Lemma reporter_offline_witness :
  http_log (board (exec (kirimDataKeServer (core := wokwi_core)) wokwi_offline)) = [].
Proof.
  apply (reporter_offline (core := wokwi_core) wokwi_offline).
  vm_compute. discriminate.
Defined.

Lemma reporter_online_witness :
  http_log (board (exec (kirimDataKeServer (core := wokwi_core)) wokwi_world))
  = [GET (serverPath (core := wokwi_core) (readings wokwi_world))].
Proof.
  apply (reporter_online (core := wokwi_core) wokwi_world). reflexivity.
Defined.

Lemma setup_bounded_witness :
  clock (board (exec (setup (core := wokwi_core) (startup := wokwi_startup))
                     wokwi_world))
  = 7000.
Proof.
  destruct (setup_bounded (core := wokwi_core) (startup := wokwi_startup) wokwi_world)
    as (_ & Hclock & _ & _ & Hup).
  rewrite Hclock, (Hup eq_refl). reflexivity.
Defined.
